(** * The HR-automation client: session workflow and result reconciliation

    A shallow embedding of the React pages of the client
    (ChatPage.js, InterviewPage.js, the resume-screening page and the
    document-manager page) and the proofs of the properties its
    specification states about them.

    - JavaScript strings are sequences of UTF-16 code units ([list N]).
    - JSON field values are [JsVal]s; an absent field is [JUndefined].
    - An event handler is a computation in a small state-and-effect monad
      over the component's [useState] cells: it reads and writes the cells,
      raises toasts, and issues HTTP requests.  The part of an [async]
      handler after its [await] is a second computation, run when the
      request settles.
    - A page is a transition system over a [World]: the component state,
      the requests in flight and the notifications raised so far.  A user
      event reaches its handler only through a control the current render
      contains and leaves enabled.  Events are handled one at a time
      (the page is single-threaded): a handler runs against the state of
      the last render and its updates are committed before the next
      event is taken. *)

From Stdlib Require Import List NArith ZArith QArith Bool String Ascii Lia.
From Stdlib Require Import DecimalString DecimalZ.
Import ListNotations.

Set Implicit Arguments.

(* ================================================================== *)
(** * JavaScript values *)
(* ================================================================== *)

Module Js.

(** A string: its UTF-16 code units. *)
Definition jsstring := list N.

(** An ASCII literal of the source as a [jsstring]. *)
Definition lit (s : string) : jsstring :=
  map N_of_ascii (list_ascii_of_string s).

(** ECMAScript WhiteSpace and LineTerminator code points, the ones
    [String.prototype.trim] strips.  All of them lie in the BMP. *)
Definition isWhiteSpace (c : N) : bool :=
  ((9 <=? c) && (c <=? 13) ||
   (c =? 32) || (c =? 160) || (c =? 5760) ||
   (8192 <=? c) && (c <=? 8202) ||
   (c =? 8232) || (c =? 8233) || (c =? 8239) || (c =? 8287) ||
   (c =? 12288) || (c =? 65279))%N.

Fixpoint trimStart (s : jsstring) : jsstring :=
  match s with
  | c :: s' => if isWhiteSpace c then trimStart s' else s
  | [] => []
  end.

Definition trimEnd (s : jsstring) : jsstring := rev (trimStart (rev s)).

(** [s.trim()] *)
Definition trim (s : jsstring) : jsstring := trimEnd (trimStart s).

Fixpoint jsstring_eqb (a b : jsstring) : bool :=
  match a, b with
  | [], [] => true
  | x :: a', y :: b' => (x =? y)%N && jsstring_eqb a' b'
  | _, _ => false
  end.

(** [s.endsWith(suffix)] *)
Definition endsWith (s suffix : jsstring) : bool :=
  jsstring_eqb (skipn (List.length s - List.length suffix) s) suffix
  && (List.length suffix <=? List.length s)%nat.

(** The decimal rendering of an integral Number inside a template
    literal, [`${n}`].  [Date.now()] is an integer well inside the range
    in which Number::toString prints all digits without an exponent. *)
Definition numberToString (n : Z) : jsstring :=
  lit (NilZero.string_of_int (Z.to_int n)).

(** A JSON value held in a field.  Arrays and nested objects get types of
    their own where the pages use them; an absent field reads as
    [JUndefined].  JSON numbers are decimal literals, modelled as
    rationals; JSON has no NaN. *)
Inductive JsVal :=
| JUndefined
| JNull
| JBool (b : bool)
| JNum (q : Q)
| JStr (s : jsstring).

(** ToBoolean: what [if (v)], [!v], [v && ...], [v ? a : b] test. *)
Definition truthy (v : JsVal) : bool :=
  match v with
  | JUndefined | JNull => false
  | JBool b => b
  | JNum q => negb (Qnum q =? 0)%Z
  | JStr s => match s with [] => false | _ => true end
  end.

(** A string is truthy when it is not empty. *)
Definition truthyStr (s : jsstring) : bool :=
  match s with [] => false | _ => true end.

Definition isDefined (v : JsVal) : bool :=
  match v with JUndefined => false | _ => true end.

(** [typeof v === "number"]: the values that have [toFixed]. *)
Definition isNumber (v : JsVal) : bool :=
  match v with JNum _ => true | _ => false end.

(** [xs || []] for an optional array field. *)
Definition orEmpty {A} (xs : option (list A)) : list A :=
  match xs with Some l => l | None => [] end.

End Js.

(* ================================================================== *)
(** * Handlers: state, notifications and requests *)
(* ================================================================== *)

Module React.

Inductive ToastKind := TError | TSuccess | TWarning.

(** What a handler does besides updating state.  [Request c] is an HTTP
    call issued through axios; [c] carries the request and names the
    continuation that runs when the call settles. *)
Inductive Effect (Call : Type) :=
| Toast (k : ToastKind) (msg : string)
| ConsoleError (msg : string)
| Request (c : Call).

Arguments Toast {Call} k msg.
Arguments ConsoleError {Call} msg.
Arguments Request {Call} c.

(** How an awaited axios call settles: fulfilled with the response body,
    or rejected (transport error or non-2xx status). *)
Inductive Outcome (Data : Type) :=
| Fulfilled (data : Data)
| Rejected.

Arguments Rejected {Data}.

Section Handler.
Variables State Call : Type.

Definition Handler (A : Type) : Type :=
  State -> A * State * list (Effect Call).

Definition ret {A} (a : A) : Handler A := fun st => (a, st, []).

Definition bind {A B} (m : Handler A) (k : A -> Handler B) : Handler B :=
  fun st =>
    let '(a, st1, e1) := m st in
    let '(b, st2, e2) := k a st1 in
    (b, st2, e1 ++ e2).

(** Read a state cell, as the render closure sees it. *)
Definition read {A} (proj : State -> A) : Handler A :=
  fun st => (proj st, st, []).

(** A [setX] call. *)
Definition update (f : State -> State) : Handler unit :=
  fun st => (tt, f st, []).

Definition emit (e : Effect Call) : Handler unit :=
  fun st => (tt, st, [e]).

Definition when (b : bool) (m : Handler unit) : Handler unit :=
  if b then m else ret tt.

Definition stateOf {A} (r : A * State * list (Effect Call)) : State :=
  snd (fst r).

Definition effectsOf {A} (r : A * State * list (Effect Call))
  : list (Effect Call) := snd r.

(** The requests among a handler's effects, in issue order. *)
Fixpoint requestsOf (es : list (Effect Call)) : list Call :=
  match es with
  | Request c :: es' => c :: requestsOf es'
  | _ :: es' => requestsOf es'
  | [] => []
  end.

(** ** The page as a transition system *)

Record World := mkWorld {
  ui : State;                       (* the useState cells *)
  inflight : list Call;             (* requests awaiting their response *)
  notices : list (Effect Call)      (* everything raised so far *)
}.

(** Run a handler to completion (or to its [await]) and commit its
    state updates and effects. *)
Definition commit (w : World) (h : Handler unit) : World :=
  let '(_, st, es) := h (ui w) in
  {| ui := st;
     inflight := inflight w ++ requestsOf es;
     notices := notices w ++ es |}.

Fixpoint removeNth {A} (n : nat) (l : list A) : list A :=
  match n, l with
  | O, _ :: l' => l'
  | S n', x :: l' => x :: removeNth n' l'
  | _, [] => []
  end.

(** The [i]-th request in flight settles: its continuation runs. *)
Definition settle {Data} (resume : Call -> Outcome Data -> Handler unit)
  (w : World) (i : nat) (r : Outcome Data) : World :=
  match nth_error (inflight w) i with
  | Some c =>
      commit {| ui := ui w; inflight := removeNth i (inflight w);
                notices := notices w |} (resume c r)
  | None => w
  end.

End Handler.

Arguments ret {State Call A} a.
Arguments bind {State Call A B} m k.
Arguments read {State Call A} proj.
Arguments update {State Call} f.
Arguments emit {State Call} e.
Arguments when {State Call} b m.

Declare Scope handler_scope.
Delimit Scope handler_scope with handler.
Notation "x <- m ;; k" := (bind m (fun x => k))
  (at level 61, m at next level, right associativity) : handler_scope.
Notation "m ;; k" := (bind m (fun _ => k))
  (at level 61, right associativity) : handler_scope.

End React.

(* ================================================================== *)
(** * Transcripts *)
(* ================================================================== *)

Module Transcript.

(** [later] is [earlier] with turns appended: nothing was edited,
    removed or reordered. *)
Definition extends {A} (later earlier : list A) : Prop :=
  exists more, later = earlier ++ more.

End Transcript.

(* ================================================================== *)
(** * ChatPage.js *)
(* ================================================================== *)

Module ChatPage.
Import Js React.
Local Open Scope handler_scope.

(** A turn of the chat transcript.  A user turn is
    [{role, message}]; an assistant turn adds [confidence] and
    [escalated]. *)
Record Message := mkMessage {
  role : jsstring;
  message : JsVal;
  confidence : JsVal;
  escalated : JsVal
}.

(** The component's [useState] cells.  [sessionId] has no setter. *)
Record State := mkState {
  messages : list Message;
  input : jsstring;
  loading : bool;
  sessionId : jsstring
}.

(** The fields the page reads off a response body. *)
Record Data := mkData {
  data_response : JsVal;
  data_confidence : JsVal;
  data_escalated : JsVal;
  data_messages : option (list Message)
}.

Inductive Call :=
| GetChatHistory (session_id : jsstring)
| PostChat (session_id : jsstring) (message : jsstring).

Definition H := Handler State Call.

Definition setMessages (f : list Message -> list Message) : H unit :=
  update (fun st => mkState (f (messages st)) (input st) (loading st)
                            (sessionId st)).

Definition setInput (v : jsstring) : H unit :=
  update (fun st => mkState (messages st) v (loading st) (sessionId st)).

Definition setLoading (b : bool) : H unit :=
  update (fun st => mkState (messages st) (input st) b (sessionId st)).

(** [useState(() => `session_${Date.now()}`)] *)
Definition sessionId_init (now : Z) : jsstring :=
  lit "session_" ++ numberToString now.

Definition userTurn (userMessage : jsstring) : Message :=
  mkMessage (lit "user") (JStr userMessage) JUndefined JUndefined.

Definition assistantTurn (d : Data) : Message :=
  mkMessage (lit "assistant") (data_response d) (data_confidence d)
            (data_escalated d).

(** [loadHistory], up to its [await]. *)
Definition loadHistory : H unit :=
  sid <- read sessionId ;;
  emit (Request (GetChatHistory sid)).

(** [loadHistory], from its [await] on. *)
Definition loadHistory_resume (r : Outcome Data) : H unit :=
  match r with
  | Fulfilled d =>
      match data_messages d with
      | Some ms => setMessages (fun _ => ms)
      | None => ret tt
      end
  | Rejected => emit (ConsoleError "Error loading chat history:")
  end.

(** [handleSend], up to its [await]. *)
Definition handleSend : H unit :=
  input <- read input ;;
  loading <- read loading ;;
  if negb (truthyStr (trim input)) || loading then ret tt
  else
    let userMessage := input in
    setInput [] ;;
    setMessages (fun prev => prev ++ [userTurn userMessage]) ;;
    setLoading true ;;
    sid <- read sessionId ;;
    emit (Request (PostChat sid userMessage)).

(** [handleSend], from its [await] on: try / catch / finally. *)
Definition handleSend_resume (r : Outcome Data) : H unit :=
  match r with
  | Fulfilled d =>
      setMessages (fun prev => prev ++ [assistantTurn d]) ;;
      when (truthy (data_escalated d))
        (emit (Toast TWarning "This query has been escalated to HR team"))
  | Rejected =>
      emit (ConsoleError "Error sending message:") ;;
      emit (Toast TError "Failed to send message. Please try again.")
  end ;;
  setLoading false.

Definition resume (c : Call) (r : Outcome Data) : H unit :=
  match c with
  | GetChatHistory _ => loadHistory_resume r
  | PostChat _ _ => handleSend_resume r
  end.

(** ** The page *)

Definition W := World State Call.

(** First render: the cells take their initial values, then the mount
    effect calls [loadHistory]. *)
Definition mount (now : Z) : W :=
  commit (mkWorld (mkState [] [] false (sessionId_init now)) [] [])
         loadHistory.

Inductive Event :=
| ChangeInput (v : jsstring)
| PressEnter
| ClickSend
| Settle (i : nat) (r : Outcome Data).

(** [<Input disabled={loading}>] *)
Definition inputEnabled (st : State) : bool := negb (loading st).

(** [<Button disabled={loading || !input.trim()}>] *)
Definition sendEnabled (st : State) : bool :=
  negb (loading st || negb (truthyStr (trim (input st)))).

Definition step (w : W) (e : Event) : W :=
  match e with
  | ChangeInput v => if inputEnabled (ui w) then commit w (setInput v) else w
  | PressEnter => if inputEnabled (ui w) then commit w handleSend else w
  | ClickSend => if sendEnabled (ui w) then commit w handleSend else w
  | Settle i r => settle resume w i r
  end.

Definition run (now : Z) (evs : list Event) : W :=
  fold_left step evs (mount now).

Definition isExchange (c : Call) : bool :=
  match c with PostChat _ _ => true | GetChatHistory _ => false end.

(** The chat exchanges awaiting their response. *)
Definition exchangesInFlight (w : W) : list Call :=
  filter isExchange (inflight w).

(** What holds of the chat page after every trace: the id is the one
    made at mount, and [loading] is raised exactly while one exchange is
    in flight. *)
Definition chatInv (now : Z) (w : W) : Prop :=
  sessionId (ui w) = sessionId_init now /\
  List.length (exchangesInFlight w) = if loading (ui w) then 1%nat else 0%nat.


(** ** The moves of the page

    What one event can do to the world, one constructor per way through
    the handlers. *)
Inductive Move (w : W) : W -> Prop :=
| Idle : Move w w
| InputEdited v :
    loading (ui w) = false ->
    Move w (mkWorld (mkState (messages (ui w)) v (loading (ui w))
                             (sessionId (ui w)))
                    (inflight w) (notices w))
| SendIssued :
    loading (ui w) = false ->
    truthyStr (trim (input (ui w))) = true ->
    Move w (mkWorld (mkState (messages (ui w) ++ [userTurn (input (ui w))])
                             [] true (sessionId (ui w)))
                    (inflight w
                     ++ [PostChat (sessionId (ui w)) (input (ui w))])
                    (notices w
                     ++ [Request (PostChat (sessionId (ui w))
                                           (input (ui w)))]))
| HistoryLoaded i sid ms :
    nth_error (inflight w) i = Some (GetChatHistory sid) ->
    Move w (mkWorld (mkState ms (input (ui w)) (loading (ui w))
                             (sessionId (ui w)))
                    (removeNth i (inflight w)) (notices w))
| HistoryKept i sid :
    nth_error (inflight w) i = Some (GetChatHistory sid) ->
    Move w (mkWorld (ui w) (removeNth i (inflight w)) (notices w))
| HistoryFailed i sid :
    nth_error (inflight w) i = Some (GetChatHistory sid) ->
    Move w (mkWorld (ui w) (removeNth i (inflight w))
                    (notices w
                     ++ [ConsoleError "Error loading chat history:"]))
| ExchangeFulfilled i sid m d :
    nth_error (inflight w) i = Some (PostChat sid m) ->
    Move w (mkWorld (mkState (messages (ui w) ++ [assistantTurn d])
                             (input (ui w)) false (sessionId (ui w)))
                    (removeNth i (inflight w))
                    (notices w
                     ++ if truthy (data_escalated d)
                        then [Toast TWarning
                                "This query has been escalated to HR team"]
                        else []))
| ExchangeRejected i sid m :
    nth_error (inflight w) i = Some (PostChat sid m) ->
    Move w (mkWorld (mkState (messages (ui w)) (input (ui w)) false
                             (sessionId (ui w)))
                    (removeNth i (inflight w))
                    (notices w
                     ++ [ConsoleError "Error sending message:";
                         Toast TError
                           "Failed to send message. Please try again."])).

Definition isHistory (c : Call) : bool := negb (isExchange c).

(** The history request of the mount effect has not settled yet. *)
Definition historyPending (w : W) : bool := existsb isHistory (inflight w).

(** What holds of everything the page ever sent: every request carries
    the id made at mount, every chat message holds more than white
    space, and the history was requested once. *)
Definition chatRequestsWellFormed (now : Z) (w : W) : Prop :=
  (forall sid, In (Request (GetChatHistory sid)) (notices w) ->
               sid = sessionId_init now) /\
  (forall sid m, In (Request (PostChat sid m)) (notices w) ->
                 sid = sessionId_init now /\ trim m <> []) /\
  List.length (filter isHistory (requestsOf (notices w))) = 1%nat.

End ChatPage.

(* ================================================================== *)
(** * InterviewPage.js *)
(* ================================================================== *)

Module InterviewPage.
Import Js React.
Local Open Scope handler_scope.

(** A turn of the interview transcript: [{role, content}], nothing
    else. *)
Record Message := mkMessage {
  role : jsstring;
  content : JsVal
}.

Record Evaluation := mkEvaluation {
  score : JsVal;
  feedback : JsVal
}.

(** The component's [useState] cells.  [evaluation] starts as [null];
    [sessionId] has no setter. *)
Record State := mkState {
  sessionStarted : bool;
  candidateName : jsstring;
  position : jsstring;
  messages : list Message;
  input : jsstring;
  loading : bool;
  completed : bool;
  evaluation : option Evaluation;
  sessionId : jsstring
}.

Record Data := mkData {
  data_response : JsVal;
  data_completed : JsVal;
  data_score : JsVal
}.

(** POST /interview.  [startInterview] sends no [message];
    [handleSend] sends one. *)
Inductive Call :=
| PostInterview (session_id candidate_name position : jsstring)
                (message : option jsstring).

Definition H := Handler State Call.

Definition setSessionStarted (b : bool) : H unit :=
  update (fun st => mkState b (candidateName st) (position st) (messages st)
    (input st) (loading st) (completed st) (evaluation st) (sessionId st)).

Definition setCandidateName (v : jsstring) : H unit :=
  update (fun st => mkState (sessionStarted st) v (position st) (messages st)
    (input st) (loading st) (completed st) (evaluation st) (sessionId st)).

Definition setPosition (v : jsstring) : H unit :=
  update (fun st => mkState (sessionStarted st) (candidateName st) v
    (messages st) (input st) (loading st) (completed st) (evaluation st)
    (sessionId st)).

Definition setMessages (f : list Message -> list Message) : H unit :=
  update (fun st => mkState (sessionStarted st) (candidateName st)
    (position st) (f (messages st)) (input st) (loading st) (completed st)
    (evaluation st) (sessionId st)).

Definition setInput (v : jsstring) : H unit :=
  update (fun st => mkState (sessionStarted st) (candidateName st)
    (position st) (messages st) v (loading st) (completed st)
    (evaluation st) (sessionId st)).

Definition setLoading (b : bool) : H unit :=
  update (fun st => mkState (sessionStarted st) (candidateName st)
    (position st) (messages st) (input st) b (completed st) (evaluation st)
    (sessionId st)).

Definition setCompleted (b : bool) : H unit :=
  update (fun st => mkState (sessionStarted st) (candidateName st)
    (position st) (messages st) (input st) (loading st) b (evaluation st)
    (sessionId st)).

Definition setEvaluation (ev : option Evaluation) : H unit :=
  update (fun st => mkState (sessionStarted st) (candidateName st)
    (position st) (messages st) (input st) (loading st) (completed st) ev
    (sessionId st)).

(** [useState(() => `interview_${Date.now()}`)] *)
Definition sessionId_init (now : Z) : jsstring :=
  lit "interview_" ++ numberToString now.

Definition userTurn (userMessage : jsstring) : Message :=
  mkMessage (lit "user") (JStr userMessage).

Definition assistantTurn (d : Data) : Message :=
  mkMessage (lit "assistant") (data_response d).

(** [startInterview], up to its [await]. *)
Definition startInterview : H unit :=
  candidateName <- read candidateName ;;
  position <- read position ;;
  if negb (truthyStr (trim candidateName)) || negb (truthyStr (trim position))
  then emit (Toast TError "Please enter candidate name and position")
  else
    setLoading true ;;
    sid <- read sessionId ;;
    emit (Request (PostInterview sid candidateName position None)).

(** [startInterview], from its [await] on. *)
Definition startInterview_resume (r : Outcome Data) : H unit :=
  match r with
  | Fulfilled d =>
      setMessages (fun _ => [assistantTurn d]) ;;
      setSessionStarted true
  | Rejected =>
      emit (ConsoleError "Error starting interview:") ;;
      emit (Toast TError "Failed to start interview")
  end ;;
  setLoading false.

(** [handleSend], up to its [await]. *)
Definition handleSend : H unit :=
  input <- read input ;;
  loading <- read loading ;;
  completed <- read completed ;;
  if negb (truthyStr (trim input)) || loading || completed then ret tt
  else
    let userMessage := input in
    setInput [] ;;
    setMessages (fun prev => prev ++ [userTurn userMessage]) ;;
    setLoading true ;;
    sid <- read sessionId ;;
    candidateName <- read candidateName ;;
    position <- read position ;;
    emit (Request (PostInterview sid candidateName position
                                 (Some userMessage))).

(** [handleSend], from its [await] on. *)
Definition handleSend_resume (r : Outcome Data) : H unit :=
  match r with
  | Fulfilled d =>
      setMessages (fun prev => prev ++ [assistantTurn d]) ;;
      when (truthy (data_completed d))
        (setCompleted true ;;
         setEvaluation (Some (mkEvaluation (data_score d) (data_response d))) ;;
         emit (Toast TSuccess "Interview completed!"))
  | Rejected =>
      emit (ConsoleError "Error sending message:") ;;
      emit (Toast TError "Failed to send message")
  end ;;
  setLoading false.

Definition resume (c : Call) (r : Outcome Data) : H unit :=
  match c with
  | PostInterview _ _ _ None => startInterview_resume r
  | PostInterview _ _ _ (Some _) => handleSend_resume r
  end.

(** ** The page *)

Definition W := World State Call.

Definition mount (now : Z) : W :=
  mkWorld (mkState false [] [] [] [] false false None (sessionId_init now))
          [] [].

Inductive Event :=
| ChangeCandidateName (v : jsstring)
| ChangePosition (v : jsstring)
| ClickStart
| ChangeInput (v : jsstring)
| PressEnter
| ClickSend
| Settle (i : nat) (r : Outcome Data).

(** The controls of the two views.  While [sessionStarted] is false the
    component returns the start form: the two text fields and the start
    button, [disabled={loading}].  Afterwards it returns the transcript
    view, whose answer field and send button exist only under
    [{!completed && ...}]. *)
Definition startFormShown (st : State) : bool := negb (sessionStarted st).

Definition startEnabled (st : State) : bool :=
  startFormShown st && negb (loading st).

Definition answerBarShown (st : State) : bool :=
  sessionStarted st && negb (completed st).

(** [<Input disabled={loading}>] *)
Definition inputEnabled (st : State) : bool :=
  answerBarShown st && negb (loading st).

(** [<Button disabled={loading || !input.trim()}>] *)
Definition sendEnabled (st : State) : bool :=
  answerBarShown st && negb (loading st || negb (truthyStr (trim (input st)))).

Definition step (w : W) (e : Event) : W :=
  match e with
  | ChangeCandidateName v =>
      if startFormShown (ui w) then commit w (setCandidateName v) else w
  | ChangePosition v =>
      if startFormShown (ui w) then commit w (setPosition v) else w
  | ClickStart =>
      if startEnabled (ui w) then commit w startInterview else w
  | ChangeInput v =>
      if inputEnabled (ui w) then commit w (setInput v) else w
  | PressEnter =>
      if inputEnabled (ui w) then commit w handleSend else w
  | ClickSend =>
      if sendEnabled (ui w) then commit w handleSend else w
  | Settle i r => settle resume w i r
  end.

Definition run (now : Z) (evs : list Event) : W :=
  fold_left step evs (mount now).

(** The lifecycle of the specification, read off the two flags the
    component keeps. *)
Inductive Phase := NotStarted | InProgress | Completed.

Definition phase (st : State) : Phase :=
  if completed st then Completed
  else if sessionStarted st then InProgress
  else NotStarted.

(** The final score is the [score] of the stored evaluation,
    [evaluation.score]; there is none while [evaluation] is [null]. *)
Definition finalScore (st : State) : JsVal :=
  match evaluation st with
  | Some ev => score ev
  | None => JUndefined
  end.

(** Whether the render of the component returns.  The start form has
    nothing that can throw.  The transcript view evaluates
    [completed && evaluation && ... evaluation.score.toFixed(0) ...] in
    its header: [toFixed] exists on Numbers only, so with any other
    score stored the expression throws.  App.js wraps the routes in no
    error boundary: when the render throws, the page is unmounted and
    draws nothing. *)
Definition renders (st : State) : bool :=
  if sessionStarted st then
    if completed st then
      match evaluation st with
      | Some ev => isNumber (score ev)
      | None => true
      end
    else true
  else true.

(** No turn stores a terminal mark.  The transcript view derives one
    for the bubble at [index]: an assistant bubble is drawn as the
    closing evaluation when [completed && index === messages.length - 1].
    Bubbles exist only in the transcript view, and only when the render
    returns. *)
Definition isTerminal (st : State) (index : nat) : bool :=
  sessionStarted st && renders st &&
  match nth_error (messages st) index with
  | Some msg =>
      negb (jsstring_eqb (role msg) (lit "user"))
      && completed st
      && (index =? List.length (messages st) - 1)%nat
  | None => false
  end.

(** Both fields of the start form hold more than white space. *)
Definition namesGiven (st : State) : bool :=
  truthyStr (trim (candidateName st)) && truthyStr (trim (position st)).

(** What holds of the interview page after every trace. *)
Record interviewInv (now : Z) (w : W) : Prop := mkInterviewInv {
  (* the id is the one made at mount *)
  inv_sid : sessionId (ui w) = sessionId_init now;
  (* [loading] is raised exactly while one request is in flight *)
  inv_one :
    List.length (inflight w) = if loading (ui w) then 1%nat else 0%nat;
  (* the evaluation is stored exactly when the flag is raised *)
  inv_eval : evaluation (ui w) <> None <-> completed (ui w) = true;
  (* a completed interview was started and has nothing in flight *)
  inv_done :
    completed (ui w) = true ->
    sessionStarted (ui w) = true /\ loading (ui w) = false;
  (* answers are only sent from the transcript view *)
  inv_answer :
    forall sid n p m,
      In (PostInterview sid n p (Some m)) (inflight w) ->
      sessionStarted (ui w) = true
}.

(** The engine keeps its side of the exchange at [e]: a response that
    says [completed] carries a [score] that is a Number. *)
Definition scoresCompletion (e : Event) : Prop :=
  match e with
  | Settle _ (Fulfilled d) =>
      truthy (data_completed d) = true -> isNumber (data_score d) = true
  | _ => True
  end.


(** ** The moves of the page

    What one event can do to the world, one constructor per way through
    the handlers and the two views. *)
Inductive Move (w : W) : W -> Prop :=
| Idle : Move w w
| NameEdited v :
    sessionStarted (ui w) = false ->
    Move w (mkWorld
              (mkState (sessionStarted (ui w)) v (position (ui w))
                 (messages (ui w)) (input (ui w)) (loading (ui w))
                 (completed (ui w)) (evaluation (ui w)) (sessionId (ui w)))
              (inflight w) (notices w))
| PositionEdited v :
    sessionStarted (ui w) = false ->
    Move w (mkWorld
              (mkState (sessionStarted (ui w)) (candidateName (ui w)) v
                 (messages (ui w)) (input (ui w)) (loading (ui w))
                 (completed (ui w)) (evaluation (ui w)) (sessionId (ui w)))
              (inflight w) (notices w))
| StartRefused :
    sessionStarted (ui w) = false ->
    loading (ui w) = false ->
    namesGiven (ui w) = false ->
    Move w (mkWorld (ui w) (inflight w)
              (notices w
               ++ [Toast TError "Please enter candidate name and position"]))
| StartIssued :
    sessionStarted (ui w) = false ->
    loading (ui w) = false ->
    namesGiven (ui w) = true ->
    Move w (mkWorld
              (mkState (sessionStarted (ui w)) (candidateName (ui w))
                 (position (ui w)) (messages (ui w)) (input (ui w)) true
                 (completed (ui w)) (evaluation (ui w)) (sessionId (ui w)))
              (inflight w
               ++ [PostInterview (sessionId (ui w)) (candidateName (ui w))
                                 (position (ui w)) None])
              (notices w
               ++ [Request (PostInterview (sessionId (ui w))
                              (candidateName (ui w)) (position (ui w))
                              None)]))
| InputEdited v :
    sessionStarted (ui w) = true ->
    completed (ui w) = false ->
    loading (ui w) = false ->
    Move w (mkWorld
              (mkState (sessionStarted (ui w)) (candidateName (ui w))
                 (position (ui w)) (messages (ui w)) v (loading (ui w))
                 (completed (ui w)) (evaluation (ui w)) (sessionId (ui w)))
              (inflight w) (notices w))
| AnswerIssued :
    sessionStarted (ui w) = true ->
    completed (ui w) = false ->
    loading (ui w) = false ->
    truthyStr (trim (input (ui w))) = true ->
    Move w (mkWorld
              (mkState (sessionStarted (ui w)) (candidateName (ui w))
                 (position (ui w))
                 (messages (ui w) ++ [userTurn (input (ui w))]) [] true
                 (completed (ui w)) (evaluation (ui w)) (sessionId (ui w)))
              (inflight w
               ++ [PostInterview (sessionId (ui w)) (candidateName (ui w))
                                 (position (ui w)) (Some (input (ui w)))])
              (notices w
               ++ [Request (PostInterview (sessionId (ui w))
                              (candidateName (ui w)) (position (ui w))
                              (Some (input (ui w))))]))
| StartFulfilled i sid n p d :
    nth_error (inflight w) i = Some (PostInterview sid n p None) ->
    Move w (mkWorld
              (mkState true (candidateName (ui w)) (position (ui w))
                 [assistantTurn d] (input (ui w)) false (completed (ui w))
                 (evaluation (ui w)) (sessionId (ui w)))
              (removeNth i (inflight w)) (notices w))
| StartRejected i sid n p :
    nth_error (inflight w) i = Some (PostInterview sid n p None) ->
    Move w (mkWorld
              (mkState (sessionStarted (ui w)) (candidateName (ui w))
                 (position (ui w)) (messages (ui w)) (input (ui w)) false
                 (completed (ui w)) (evaluation (ui w)) (sessionId (ui w)))
              (removeNth i (inflight w))
              (notices w
               ++ [ConsoleError "Error starting interview:";
                   Toast TError "Failed to start interview"]))
| AnswerFulfilled i sid n p m d :
    nth_error (inflight w) i = Some (PostInterview sid n p (Some m)) ->
    truthy (data_completed d) = false ->
    Move w (mkWorld
              (mkState (sessionStarted (ui w)) (candidateName (ui w))
                 (position (ui w)) (messages (ui w) ++ [assistantTurn d])
                 (input (ui w)) false (completed (ui w)) (evaluation (ui w))
                 (sessionId (ui w)))
              (removeNth i (inflight w)) (notices w))
| AnswerCompleted i sid n p m d :
    nth_error (inflight w) i = Some (PostInterview sid n p (Some m)) ->
    truthy (data_completed d) = true ->
    Move w (mkWorld
              (mkState (sessionStarted (ui w)) (candidateName (ui w))
                 (position (ui w)) (messages (ui w) ++ [assistantTurn d])
                 (input (ui w)) false true
                 (Some (mkEvaluation (data_score d) (data_response d)))
                 (sessionId (ui w)))
              (removeNth i (inflight w))
              (notices w ++ [Toast TSuccess "Interview completed!"]))
| AnswerRejected i sid n p m :
    nth_error (inflight w) i = Some (PostInterview sid n p (Some m)) ->
    Move w (mkWorld
              (mkState (sessionStarted (ui w)) (candidateName (ui w))
                 (position (ui w)) (messages (ui w)) (input (ui w)) false
                 (completed (ui w)) (evaluation (ui w)) (sessionId (ui w)))
              (removeNth i (inflight w))
              (notices w
               ++ [ConsoleError "Error sending message:";
                   Toast TError "Failed to send message"])).

(** More of what holds of the interview page after every trace. *)
Record interviewShape (now : Z) (w : W) : Prop := mkInterviewShape {
  (* before the start the transcript is empty and no answer was sent *)
  shape_fresh :
    sessionStarted (ui w) = false ->
    messages (ui w) = [] /\
    forall sid n p m, ~ In (Request (PostInterview sid n p (Some m)))
                           (notices w);
  (* afterwards it opens with a turn of the assistant *)
  shape_opening :
    sessionStarted (ui w) = true ->
    exists d rest, messages (ui w) = assistantTurn d :: rest;
  (* a start is only in flight before the start *)
  shape_start :
    forall sid n p, In (PostInterview sid n p None) (inflight w) ->
                    sessionStarted (ui w) = false;
  (* the answer in flight is the last turn of the transcript *)
  shape_answer :
    forall sid n p m, In (PostInterview sid n p (Some m)) (inflight w) ->
                      exists before, messages (ui w) = before ++ [userTurn m];
  (* a completed interview ends with a turn of the assistant *)
  shape_closing :
    completed (ui w) = true ->
    exists before d, messages (ui w) = before ++ [assistantTurn d];
  (* every start sent carried the id and a name and a position *)
  shape_starts :
    forall sid n p, In (Request (PostInterview sid n p None)) (notices w) ->
                    sid = sessionId_init now /\ trim n <> [] /\ trim p <> [];
  (* every answer sent carried the id, the details the page holds and a
     message *)
  shape_answers :
    forall sid n p m,
      In (Request (PostInterview sid n p (Some m))) (notices w) ->
      sid = sessionId_init now /\ n = candidateName (ui w) /\
      p = position (ui w) /\ trim m <> []
}.

End InterviewPage.

(* ================================================================== *)
(** * Session identity *)
(* ================================================================== *)

Module Sessions.
Import Js React.

Inductive Kind := Chat | Interview.

(** The id a page view of [kind] holds when it is mounted while
    [Date.now()] reads [now]. *)
Definition sessionIdOf (kind : Kind) (now : Z) : jsstring :=
  match kind with
  | Chat => ChatPage.sessionId (ui (ChatPage.mount now))
  | Interview => InterviewPage.sessionId (ui (InterviewPage.mount now))
  end.

(** The ids of a sequence of page views, each listed with the clock
    reading at its mount. *)
Definition sessionIds (views : list (Kind * Z)) : list jsstring :=
  map (fun v => sessionIdOf (fst v) (snd v)) views.

(** No two entries of the list are equal. *)
Definition pairwiseDistinct (ids : list jsstring) : Prop :=
  forall i j a b,
    i <> j -> nth_error ids i = Some a -> nth_error ids j = Some b -> a <> b.

End Sessions.

(* ================================================================== *)
(** * Picking a file to upload (both upload pages) *)
(* ================================================================== *)

Module Upload.
Import Js.

(** What the pages use of a DOM [File]. *)
Record File := mkFile {
  name : jsstring;
  bytes : list N
}.

(** [file.name.endsWith('.pdf') || file.name.endsWith('.docx')] *)
Definition accepted (file : File) : bool :=
  endsWith (name file) (lit ".pdf") || endsWith (name file) (lit ".docx").

(** [e.target.files[0]]: [undefined] when the picker was dismissed. *)
Definition files0 (files : list File) : option File := hd_error files.

End Upload.

(* ================================================================== *)
(** * The resume-screening page *)
(* ================================================================== *)

Module ResumePage.
Import Js React Upload.
Local Open Scope handler_scope.

(** An entry of either list the page shows: a persisted resume of
    GET /resumes ([id], [filename], [score]) or a result of
    POST /screen-resumes ([resume_id], [filename], [score], [analysis]).
    Both are plain objects; a field an object lacks is [JUndefined]. *)
Record Item := mkItem {
  resume_id : JsVal;
  id : JsVal;
  filename : JsVal;
  score : JsVal;
  analysis : JsVal
}.

Record State := mkState {
  resumes : list Item;
  uploading : bool;
  screening : bool;
  selectedFile : option File;
  jobDescription : jsstring;
  screenResults : list Item
}.

Record Data := mkData {
  data_resumes : option (list Item);
  data_results : option (list Item)
}.

Inductive Call :=
| GetResumes
| PostUploadResume (file : File)
| PostScreenResumes (job_description : jsstring).

Definition H := Handler State Call.

Definition setResumes (v : list Item) : H unit :=
  update (fun st => mkState v (uploading st) (screening st) (selectedFile st)
                            (jobDescription st) (screenResults st)).

Definition setUploading (b : bool) : H unit :=
  update (fun st => mkState (resumes st) b (screening st) (selectedFile st)
                            (jobDescription st) (screenResults st)).

Definition setScreening (b : bool) : H unit :=
  update (fun st => mkState (resumes st) (uploading st) b (selectedFile st)
                            (jobDescription st) (screenResults st)).

Definition setSelectedFile (f : option File) : H unit :=
  update (fun st => mkState (resumes st) (uploading st) (screening st) f
                            (jobDescription st) (screenResults st)).

Definition setJobDescription (v : jsstring) : H unit :=
  update (fun st => mkState (resumes st) (uploading st) (screening st)
                            (selectedFile st) v (screenResults st)).

Definition setScreenResults (v : list Item) : H unit :=
  update (fun st => mkState (resumes st) (uploading st) (screening st)
                            (selectedFile st) (jobDescription st) v).

(** [loadResumes], up to its [await]. *)
Definition loadResumes : H unit := emit (Request GetResumes).

(** [loadResumes], from its [await] on. *)
Definition loadResumes_resume (r : Outcome Data) : H unit :=
  match r with
  | Fulfilled d => setResumes (orEmpty (data_resumes d))
  | Rejected =>
      emit (ConsoleError "Error loading resumes:") ;;
      emit (Toast TError "Failed to load resumes")
  end.

Definition handleFileChange (files : list File) : H unit :=
  match files0 files with
  | Some file =>
      if accepted file then setSelectedFile (Some file)
      else emit (Toast TError "Only PDF and DOCX files are supported")
  | None => ret tt
  end.

(** [handleUpload], up to its [await]. *)
Definition handleUpload : H unit :=
  selectedFile <- read selectedFile ;;
  match selectedFile with
  | None => emit (Toast TError "Please select a file")
  | Some file =>
      setUploading true ;;
      emit (Request (PostUploadResume file))
  end.

(** [handleUpload], from its [await] on. *)
Definition handleUpload_resume (r : Outcome Data) : H unit :=
  match r with
  | Fulfilled _ =>
      emit (Toast TSuccess "Resume uploaded successfully") ;;
      setSelectedFile None ;;
      loadResumes
  | Rejected =>
      emit (ConsoleError "Error uploading resume:") ;;
      emit (Toast TError "Failed to upload resume")
  end ;;
  setUploading false.

(** [handleScreenResumes], up to its [await]. *)
Definition handleScreenResumes : H unit :=
  jobDescription <- read jobDescription ;;
  resumes <- read resumes ;;
  if negb (truthyStr (trim jobDescription))
  then emit (Toast TError "Please enter a job description")
  else if (List.length resumes =? 0)%nat
  then emit (Toast TError "Please upload resumes first")
  else
    setScreening true ;;
    emit (Request (PostScreenResumes jobDescription)).

(** [handleScreenResumes], from its [await] on. *)
Definition handleScreenResumes_resume (r : Outcome Data) : H unit :=
  match r with
  | Fulfilled d =>
      setScreenResults (orEmpty (data_results d)) ;;
      emit (Toast TSuccess "Resume screening completed") ;;
      loadResumes
  | Rejected =>
      emit (ConsoleError "Error screening resumes:") ;;
      emit (Toast TError "Failed to screen resumes")
  end ;;
  setScreening false.

Definition resume (c : Call) (r : Outcome Data) : H unit :=
  match c with
  | GetResumes => loadResumes_resume r
  | PostUploadResume _ => handleUpload_resume r
  | PostScreenResumes _ => handleScreenResumes_resume r
  end.

(** [const displayResults =
      screenResults.length > 0 ? screenResults : resumes.filter(r => r.score)] *)
Definition displayResults (screenResults resumes : list Item) : list Item :=
  if (0 <? List.length screenResults)%nat then screenResults
  else filter (fun r => truthy (score r)) resumes.

(** The rule as the specification words its second tier: the catalog
    items that have a defined score.  Stated for comparison with
    [displayResults]. *)
Definition resolveDisplayList_asSpecified (lastScreeningRun catalog : list Item)
  : list Item :=
  match lastScreeningRun with
  | [] => filter (fun r => isDefined (score r)) catalog
  | _ => lastScreeningRun
  end.

(** The rank printed on the card at [index]: [Rank #{index + 1}]. *)
Definition rank (index : nat) : nat := index + 1.

(** ** The page *)

Definition W := World State Call.

Definition mount : W :=
  commit (mkWorld (mkState [] false false None [] []) [] []) loadResumes.

Inductive Event :=
| FileChange (files : list File)
| ClickUpload
| ChangeJobDescription (v : jsstring)
| ClickScreen
| Settle (i : nat) (r : Outcome Data).

(** [<Button disabled={uploading || !selectedFile}>] *)
Definition uploadEnabled (st : State) : bool :=
  negb (uploading st
        || match selectedFile st with Some _ => false | None => true end).

(** [<Button disabled={screening || !jobDescription.trim()
                       || resumes.length === 0}>] *)
Definition screenEnabled (st : State) : bool :=
  negb (screening st || negb (truthyStr (trim (jobDescription st)))
        || (List.length (resumes st) =? 0)%nat).

Definition step (w : W) (e : Event) : W :=
  match e with
  | FileChange files => commit w (handleFileChange files)
  | ClickUpload => if uploadEnabled (ui w) then commit w handleUpload else w
  | ChangeJobDescription v => commit w (setJobDescription v)
  | ClickScreen =>
      if screenEnabled (ui w) then commit w handleScreenResumes else w
  | Settle i r => settle resume w i r
  end.

Definition run (evs : list Event) : W := fold_left step evs mount.

(** The files of the uploads awaiting their response. *)
Fixpoint uploadsInFlight (cs : list Call) : list File :=
  match cs with
  | PostUploadResume f :: cs' => f :: uploadsInFlight cs'
  | _ :: cs' => uploadsInFlight cs'
  | [] => []
  end.

(** Whatever file is selected, and whatever file was ever sent, passed
    the extension test. *)
Definition resumeFilesAccepted (w : W) : Prop :=
  (forall f, selectedFile (ui w) = Some f -> accepted f = true) /\
  (forall f, In (Request (PostUploadResume f)) (notices w) ->
             accepted f = true).


(** ** The moves of the page *)
Inductive Move (w : W) : W -> Prop :=
| Idle : Move w w
| FilePicked f :
    accepted f = true ->
    Move w (mkWorld (mkState (resumes (ui w)) (uploading (ui w))
                             (screening (ui w)) (Some f)
                             (jobDescription (ui w)) (screenResults (ui w)))
                    (inflight w) (notices w))
| FileRefused f :
    accepted f = false ->
    Move w (mkWorld (ui w) (inflight w)
                    (notices w
                     ++ [Toast TError
                           "Only PDF and DOCX files are supported"]))
| UploadIssued f :
    uploading (ui w) = false ->
    selectedFile (ui w) = Some f ->
    Move w (mkWorld (mkState (resumes (ui w)) true (screening (ui w))
                             (selectedFile (ui w)) (jobDescription (ui w))
                             (screenResults (ui w)))
                    (inflight w ++ [PostUploadResume f])
                    (notices w ++ [Request (PostUploadResume f)]))
| JobEdited v :
    Move w (mkWorld (mkState (resumes (ui w)) (uploading (ui w))
                             (screening (ui w)) (selectedFile (ui w)) v
                             (screenResults (ui w)))
                    (inflight w) (notices w))
| ScreenIssued :
    screening (ui w) = false ->
    truthyStr (trim (jobDescription (ui w))) = true ->
    resumes (ui w) <> [] ->
    Move w (mkWorld (mkState (resumes (ui w)) (uploading (ui w)) true
                             (selectedFile (ui w)) (jobDescription (ui w))
                             (screenResults (ui w)))
                    (inflight w ++ [PostScreenResumes (jobDescription (ui w))])
                    (notices w
                     ++ [Request (PostScreenResumes
                                    (jobDescription (ui w)))]))
| CatalogLoaded i d :
    nth_error (inflight w) i = Some GetResumes ->
    Move w (mkWorld (mkState (orEmpty (data_resumes d)) (uploading (ui w))
                             (screening (ui w)) (selectedFile (ui w))
                             (jobDescription (ui w)) (screenResults (ui w)))
                    (removeNth i (inflight w)) (notices w))
| CatalogFailed i :
    nth_error (inflight w) i = Some GetResumes ->
    Move w (mkWorld (ui w) (removeNth i (inflight w))
                    (notices w
                     ++ [ConsoleError "Error loading resumes:";
                         Toast TError "Failed to load resumes"]))
| UploadFulfilled i f :
    nth_error (inflight w) i = Some (PostUploadResume f) ->
    Move w (mkWorld (mkState (resumes (ui w)) false (screening (ui w)) None
                             (jobDescription (ui w)) (screenResults (ui w)))
                    (removeNth i (inflight w) ++ [GetResumes])
                    (notices w
                     ++ [Toast TSuccess "Resume uploaded successfully";
                         Request GetResumes]))
| UploadRejected i f :
    nth_error (inflight w) i = Some (PostUploadResume f) ->
    Move w (mkWorld (mkState (resumes (ui w)) false (screening (ui w))
                             (selectedFile (ui w)) (jobDescription (ui w))
                             (screenResults (ui w)))
                    (removeNth i (inflight w))
                    (notices w
                     ++ [ConsoleError "Error uploading resume:";
                         Toast TError "Failed to upload resume"]))
| ScreenFulfilled i jd d :
    nth_error (inflight w) i = Some (PostScreenResumes jd) ->
    Move w (mkWorld (mkState (resumes (ui w)) (uploading (ui w)) false
                             (selectedFile (ui w)) (jobDescription (ui w))
                             (orEmpty (data_results d)))
                    (removeNth i (inflight w) ++ [GetResumes])
                    (notices w
                     ++ [Toast TSuccess "Resume screening completed";
                         Request GetResumes]))
| ScreenRejected i jd :
    nth_error (inflight w) i = Some (PostScreenResumes jd) ->
    Move w (mkWorld (mkState (resumes (ui w)) (uploading (ui w)) false
                             (selectedFile (ui w)) (jobDescription (ui w))
                             (screenResults (ui w)))
                    (removeNth i (inflight w))
                    (notices w
                     ++ [ConsoleError "Error screening resumes:";
                         Toast TError "Failed to screen resumes"])).

Definition isUpload (c : Call) : bool :=
  match c with PostUploadResume _ => true | _ => false end.

Definition isScreening (c : Call) : bool :=
  match c with PostScreenResumes _ => true | _ => false end.

(** A request for the catalog. *)
Definition isRefresh (e : Effect Call) : bool :=
  match e with Request GetResumes => true | _ => false end.

(** A success toast: an upload or a screening run went through. *)
Definition isSuccess (e : Effect Call) : bool :=
  match e with Toast TSuccess _ => true | _ => false end.

(** More of what holds of the resume page after every trace. *)
Record resumeShape (w : W) : Prop := mkResumeShape {
  (* [uploading] is raised exactly while one upload is in flight *)
  busy_upload :
    List.length (filter isUpload (inflight w)) =
    if uploading (ui w) then 1%nat else 0%nat;
  (* [screening] is raised exactly while one run is in flight *)
  busy_screening :
    List.length (filter isScreening (inflight w)) =
    if screening (ui w) then 1%nat else 0%nat;
  (* no run was requested with a blank job description *)
  screened_with_text :
    forall jd, In (Request (PostScreenResumes jd)) (notices w) ->
               trim jd <> [];
  (* the catalog was requested at mount and after every success *)
  refreshed_after_success :
    List.length (filter isRefresh (notices w)) =
    S (List.length (filter isSuccess (notices w)))
}.

End ResumePage.

(* ================================================================== *)
(** * The document-manager page *)
(* ================================================================== *)

Module DocumentsPage.
Import Js React Upload.
Local Open Scope handler_scope.

Record Document := mkDocument {
  id : JsVal;
  filename : JsVal;
  doc_type : JsVal;
  uploaded_at : JsVal
}.

Record State := mkState {
  documents : list Document;
  uploading : bool;
  docType : jsstring;
  selectedFile : option File
}.

Record Data := mkData {
  data_documents : option (list Document)
}.

Inductive Call :=
| GetDocuments
| PostUploadDocument (file : File) (doc_type : jsstring).

Definition H := Handler State Call.

Definition setDocuments (v : list Document) : H unit :=
  update (fun st => mkState v (uploading st) (docType st) (selectedFile st)).

Definition setUploading (b : bool) : H unit :=
  update (fun st => mkState (documents st) b (docType st) (selectedFile st)).

Definition setDocType (v : jsstring) : H unit :=
  update (fun st => mkState (documents st) (uploading st) v (selectedFile st)).

Definition setSelectedFile (f : option File) : H unit :=
  update (fun st => mkState (documents st) (uploading st) (docType st) f).

(** [loadDocuments], up to its [await]. *)
Definition loadDocuments : H unit := emit (Request GetDocuments).

(** [loadDocuments], from its [await] on. *)
Definition loadDocuments_resume (r : Outcome Data) : H unit :=
  match r with
  | Fulfilled d => setDocuments (orEmpty (data_documents d))
  | Rejected =>
      emit (ConsoleError "Error loading documents:") ;;
      emit (Toast TError "Failed to load documents")
  end.

Definition handleFileChange (files : list File) : H unit :=
  match files0 files with
  | Some file =>
      if accepted file then setSelectedFile (Some file)
      else emit (Toast TError "Only PDF and DOCX files are supported")
  | None => ret tt
  end.

(** [handleUpload], up to its [await]. *)
Definition handleUpload : H unit :=
  selectedFile <- read selectedFile ;;
  match selectedFile with
  | None => emit (Toast TError "Please select a file")
  | Some file =>
      setUploading true ;;
      docType <- read docType ;;
      emit (Request (PostUploadDocument file docType))
  end.

(** [handleUpload], from its [await] on. *)
Definition handleUpload_resume (r : Outcome Data) : H unit :=
  match r with
  | Fulfilled _ =>
      emit (Toast TSuccess "Document uploaded successfully") ;;
      setSelectedFile None ;;
      loadDocuments
  | Rejected =>
      emit (ConsoleError "Error uploading document:") ;;
      emit (Toast TError "Failed to upload document")
  end ;;
  setUploading false.

Definition resume (c : Call) (r : Outcome Data) : H unit :=
  match c with
  | GetDocuments => loadDocuments_resume r
  | PostUploadDocument _ _ => handleUpload_resume r
  end.

(** ** The page *)

Definition W := World State Call.

Definition mount : W :=
  commit (mkWorld (mkState [] false (lit "hr") None) [] []) loadDocuments.

(** The three [SelectItem]s of the type picker. *)
Inductive DocTypeChoice := ChooseHr | ChoosePolicy | ChooseGeneral.

Definition docTypeValue (c : DocTypeChoice) : jsstring :=
  match c with
  | ChooseHr => lit "hr"
  | ChoosePolicy => lit "policy"
  | ChooseGeneral => lit "general"
  end.

Inductive Event :=
| FileChange (files : list File)
| ClickUpload
| SelectDocType (c : DocTypeChoice)
| Settle (i : nat) (r : Outcome Data).

(** [<Button disabled={uploading || !selectedFile}>] *)
Definition uploadEnabled (st : State) : bool :=
  negb (uploading st
        || match selectedFile st with Some _ => false | None => true end).

Definition step (w : W) (e : Event) : W :=
  match e with
  | FileChange files => commit w (handleFileChange files)
  | ClickUpload => if uploadEnabled (ui w) then commit w handleUpload else w
  | SelectDocType c => commit w (setDocType (docTypeValue c))
  | Settle i r => settle resume w i r
  end.

Definition run (evs : list Event) : W := fold_left step evs mount.

Fixpoint uploadsInFlight (cs : list Call) : list File :=
  match cs with
  | PostUploadDocument f _ :: cs' => f :: uploadsInFlight cs'
  | _ :: cs' => uploadsInFlight cs'
  | [] => []
  end.

(** Whatever file is selected, and whatever file was ever sent, passed
    the extension test. *)
Definition documentFilesAccepted (w : W) : Prop :=
  (forall f, selectedFile (ui w) = Some f ->
             accepted f = true) /\
  (forall f t, In (Request (PostUploadDocument f t)) (notices w)
               -> accepted f = true).


(** ** The moves of the page *)
Inductive Move (w : W) : W -> Prop :=
| Idle : Move w w
| FilePicked f :
    accepted f = true ->
    Move w (mkWorld (mkState (documents (ui w)) (uploading (ui w))
                             (docType (ui w)) (Some f))
                    (inflight w) (notices w))
| FileRefused f :
    accepted f = false ->
    Move w (mkWorld (ui w) (inflight w)
                    (notices w
                     ++ [Toast TError
                           "Only PDF and DOCX files are supported"]))
| TypeSelected c :
    Move w (mkWorld (mkState (documents (ui w)) (uploading (ui w))
                             (docTypeValue c) (selectedFile (ui w)))
                    (inflight w) (notices w))
| UploadIssued f :
    uploading (ui w) = false ->
    selectedFile (ui w) = Some f ->
    Move w (mkWorld (mkState (documents (ui w)) true (docType (ui w))
                             (selectedFile (ui w)))
                    (inflight w ++ [PostUploadDocument f (docType (ui w))])
                    (notices w
                     ++ [Request (PostUploadDocument f (docType (ui w)))]))
| ListLoaded i d :
    nth_error (inflight w) i = Some GetDocuments ->
    Move w (mkWorld (mkState (orEmpty (data_documents d)) (uploading (ui w))
                             (docType (ui w)) (selectedFile (ui w)))
                    (removeNth i (inflight w)) (notices w))
| ListFailed i :
    nth_error (inflight w) i = Some GetDocuments ->
    Move w (mkWorld (ui w) (removeNth i (inflight w))
                    (notices w
                     ++ [ConsoleError "Error loading documents:";
                         Toast TError "Failed to load documents"]))
| UploadFulfilled i f t :
    nth_error (inflight w) i = Some (PostUploadDocument f t) ->
    Move w (mkWorld (mkState (documents (ui w)) false (docType (ui w)) None)
                    (removeNth i (inflight w) ++ [GetDocuments])
                    (notices w
                     ++ [Toast TSuccess "Document uploaded successfully";
                         Request GetDocuments]))
| UploadRejected i f t :
    nth_error (inflight w) i = Some (PostUploadDocument f t) ->
    Move w (mkWorld (mkState (documents (ui w)) false (docType (ui w))
                             (selectedFile (ui w)))
                    (removeNth i (inflight w))
                    (notices w
                     ++ [ConsoleError "Error uploading document:";
                         Toast TError "Failed to upload document"])).

Definition isUpload (c : Call) : bool :=
  match c with PostUploadDocument _ _ => true | _ => false end.

(** A request for the list of documents. *)
Definition isRefresh (e : Effect Call) : bool :=
  match e with Request GetDocuments => true | _ => false end.

(** A success toast: an upload went through. *)
Definition isSuccess (e : Effect Call) : bool :=
  match e with Toast TSuccess _ => true | _ => false end.

(** One of the three values the type picker offers. *)
Definition offeredType (t : jsstring) : Prop :=
  t = lit "hr" \/ t = lit "policy" \/ t = lit "general".

(** More of what holds of the document page after every trace. *)
Record documentShape (w : W) : Prop := mkDocumentShape {
  (* the chosen type is one the picker offers *)
  type_offered : offeredType (docType (ui w));
  (* and so is the type of every upload sent *)
  sent_type_offered :
    forall f t, In (Request (PostUploadDocument f t)) (notices w) ->
                offeredType t;
  (* [uploading] is raised exactly while one upload is in flight *)
  busy_upload :
    List.length (filter isUpload (inflight w)) =
    if uploading (ui w) then 1%nat else 0%nat;
  (* the list was requested at mount and after every success *)
  refreshed_after_success :
    List.length (filter isRefresh (notices w)) =
    S (List.length (filter isSuccess (notices w)))
}.

End DocumentsPage.

(* ================================================================== *)
(** * Sample data *)
(* ================================================================== *)

Module Samples.
Import Js React.

(** A persisted resume, as GET /resumes lists it. *)
Definition catalogItem (id filename : string) (score : JsVal)
  : ResumePage.Item :=
  ResumePage.mkItem JUndefined (JStr (lit id)) (JStr (lit filename)) score
                    JUndefined.

(** A result of a screening run. *)
Definition screeningResult (resume_id filename : string) (score : Q)
  : ResumePage.Item :=
  ResumePage.mkItem (JStr (lit resume_id)) JUndefined (JStr (lit filename))
                    (JNum score) (JStr (lit "Matches the role")).

Definition lastRun : list ResumePage.Item :=
  [screeningResult "r1" "ada.pdf" 91; screeningResult "r2" "bob.docx" 74].

Definition catalog : list ResumePage.Item :=
  [catalogItem "r2" "bob.docx" (JNum 74); catalogItem "r3" "eve.pdf" JUndefined;
   catalogItem "r1" "ada.pdf" (JNum 91)].

(** A resume whose last screening scored it 0. *)
Definition zeroScored : list ResumePage.Item :=
  [catalogItem "r4" "dan.pdf" (JNum 0)].

Definition cvPdf : Upload.File := Upload.mkFile (lit "cv.pdf") [37; 80; 68; 70]%N.

Definition notesTxt : Upload.File := Upload.mkFile (lit "notes.txt") [104; 105]%N.

(** A chat page holding a message of blanks only. *)
Definition chatBlank : ChatPage.State :=
  ChatPage.mkState [ChatPage.userTurn (lit "What is the leave policy?")]
                   (lit "   ") false (ChatPage.sessionId_init 1700000000000).

(** A chat page with an exchange pending and text typed meanwhile. *)
Definition chatPending : ChatPage.State :=
  ChatPage.mkState [ChatPage.userTurn (lit "What is the leave policy?")]
                   (lit "And payroll?") true
                   (ChatPage.sessionId_init 1700000000000).

Definition opening : InterviewPage.Data :=
  InterviewPage.mkData (JStr (lit "Tell me about yourself")) (JBool false)
                       JUndefined.

(** A closing response that carries its score. *)
Definition closing : InterviewPage.Data :=
  InterviewPage.mkData (JStr (lit "Great, final score: 82")) (JBool true)
                       (JNum 82).

(** A closing response without a [score] field. *)
Definition closingUnscored : InterviewPage.Data :=
  InterviewPage.mkData (JStr (lit "Thank you, that is all")) (JBool true)
                       JUndefined.

(** The interview is started and its opening question has arrived. *)
Definition started : list InterviewPage.Event :=
  [InterviewPage.ChangeCandidateName (lit "Ada");
   InterviewPage.ChangePosition (lit "Backend Engineer");
   InterviewPage.ClickStart;
   InterviewPage.Settle 0 (Fulfilled opening)].

(** The candidate types an answer and sends it. *)
Definition answering : list InterviewPage.Event :=
  [InterviewPage.ChangeInput (lit "I have 5 years of experience");
   InterviewPage.PressEnter].

(** An interview in progress: started, one question asked, an answer
    typed, nothing in flight. *)
Definition inProgress : InterviewPage.State :=
  InterviewPage.mkState true (lit "Ada") (lit "Backend Engineer")
    [InterviewPage.assistantTurn opening] (lit "I have 5 years of experience")
    false false None
    (InterviewPage.sessionId_init 1700000000000).

(** The same interview with an answer pending. *)
Definition awaitingReply : InterviewPage.State :=
  InterviewPage.mkState true (lit "Ada") (lit "Backend Engineer")
    [InterviewPage.assistantTurn opening;
     InterviewPage.userTurn (lit "I have 5 years of experience")]
    (lit "One more thing") true false None
    (InterviewPage.sessionId_init 1700000000000).

(** The same interview once the closing evaluation has arrived. *)
Definition finished : InterviewPage.State :=
  InterviewPage.mkState true (lit "Ada") (lit "Backend Engineer")
    [InterviewPage.assistantTurn opening;
     InterviewPage.userTurn (lit "I have 5 years of experience");
     InterviewPage.assistantTurn closing]
    (lit "May I add something?") false true
    (Some (InterviewPage.mkEvaluation (JNum 82)
                                      (JStr (lit "Great, final score: 82"))))
    (InterviewPage.sessionId_init 1700000000000).

(** A resume page with a valid file selected. *)
Definition resumeSelected : ResumePage.State :=
  ResumePage.mkState [] false false (Some cvPdf) [] [].

Definition documentSelected : DocumentsPage.State :=
  DocumentsPage.mkState [] false (lit "hr") (Some cvPdf).

End Samples.

(* ================================================================== *)
(** * Facts about strings and values *)
(* ================================================================== *)

Module JsFacts.
Import Js.

Lemma N_of_ascii_inj (a b : ascii) : N_of_ascii a = N_of_ascii b -> a = b.
Proof.
  intros E. rewrite <- (ascii_N_embedding a), <- (ascii_N_embedding b).
  now rewrite E.
Qed.

Lemma lit_inj (a b : string) : lit a = lit b -> a = b.
Proof.
  unfold lit. revert b.
  induction a as [|x a IH]; intros [|y b]; simpl; intros E;
    try discriminate; auto.
  injection E as Exy Eab.
  apply N_of_ascii_inj in Exy. apply IH in Eab. congruence.
Qed.

Lemma to_int_printable (n : Z) :
  Z.to_int n <> Decimal.Pos Decimal.Nil /\
  Z.to_int n <> Decimal.Neg Decimal.Nil.
Proof.
  destruct n as [|p|p]; simpl; split; try discriminate;
    intros E; injection E as E;
    now apply (DecimalPos.Unsigned.to_uint_nonnil p).
Qed.

(** Two integers print alike only when they are equal. *)
Lemma numberToString_inj (a b : Z) :
  numberToString a = numberToString b -> a = b.
Proof.
  unfold numberToString. intros E. apply lit_inj in E.
  destruct (to_int_printable a) as [Ha1 Ha2].
  destruct (to_int_printable b) as [Hb1 Hb2].
  pose proof (NilZero.isi (Z.to_int a) Ha1 Ha2) as Ia.
  pose proof (NilZero.isi (Z.to_int b) Hb1 Hb2) as Ib.
  rewrite E, Ib in Ia. injection Ia as Ia.
  now apply DecimalZ.to_int_inj.
Qed.

Lemma trimStart_nil_iff (s : jsstring) :
  trimStart s = [] <-> forallb isWhiteSpace s = true.
Proof.
  induction s as [|c s IH]; simpl.
  - tauto.
  - destruct (isWhiteSpace c); simpl.
    + exact IH.
    + split; discriminate.
Qed.

(** Stripping leading white space does not change whether a string is
    all white space. *)
Lemma forallb_trimStart (s : jsstring) :
  forallb isWhiteSpace (trimStart s) = forallb isWhiteSpace s.
Proof.
  induction s as [|c s IH]; simpl; auto.
  destruct (isWhiteSpace c) eqn:E; simpl; auto.
  now rewrite E.
Qed.

Lemma forallb_rev {A} (p : A -> bool) (l : list A) :
  forallb p (rev l) = forallb p l.
Proof.
  induction l as [|x l IH]; simpl; auto.
  rewrite forallb_app, IH. simpl. rewrite andb_true_r. apply andb_comm.
Qed.

Lemma rev_nil_iff {A} (l : list A) : rev l = [] <-> l = [].
Proof.
  split; intros E.
  - rewrite <- (rev_involutive l), E. reflexivity.
  - now subst.
Qed.

(** [s.trim()] is empty exactly when [s] holds white space only. *)
Lemma trim_nil_iff (s : jsstring) :
  trim s = [] <-> forallb isWhiteSpace s = true.
Proof.
  unfold trim, trimEnd. change jsstring with (list N).
  rewrite rev_nil_iff. change (list N) with jsstring.
  rewrite trimStart_nil_iff, forallb_rev, forallb_trimStart.
  reflexivity.
Qed.

Lemma truthyStr_false_iff (s : jsstring) : truthyStr s = false <-> s = [].
Proof. destruct s; simpl; split; congruence. Qed.

Lemma truthy_JNum (q : Q) : truthy (JNum q) = true <-> ~ q == 0.
Proof.
  simpl. unfold Qeq. simpl. rewrite Z.mul_1_r, negb_true_iff, Z.eqb_neq.
  tauto.
Qed.

Lemma truthy_isDefined (v : JsVal) : truthy v = true -> isDefined v = true.
Proof. destruct v; simpl; auto; discriminate. Qed.

End JsFacts.

(* ================================================================== *)
(** * Facts about handlers and worlds *)
(* ================================================================== *)

Module ReactFacts.
Import React.

Section Worlds.
Variables State Call : Type.
Implicit Types (w : World State Call) (h : Handler State Call unit).

Lemma ui_commit w h : ui (commit w h) = stateOf (h (ui w)).
Proof. unfold commit, stateOf. now destruct (h (ui w)) as [[u st] es]. Qed.

Lemma inflight_commit w h :
  inflight (commit w h) = inflight w ++ requestsOf (effectsOf (h (ui w))).
Proof. unfold commit, effectsOf. now destruct (h (ui w)) as [[u st] es]. Qed.

Lemma notices_commit w h :
  notices (commit w h) = notices w ++ effectsOf (h (ui w)).
Proof. unfold commit, effectsOf. now destruct (h (ui w)) as [[u st] es]. Qed.

(** A handler that neither changes state nor raises anything leaves the
    world as it is. *)
Lemma commit_idle w h : h (ui w) = (tt, ui w, []) -> commit w h = w.
Proof.
  intros E. unfold commit. rewrite E. simpl.
  rewrite !app_nil_r. now destruct w.
Qed.

Lemma requestsOf_app (a b : list (Effect Call)) :
  requestsOf (a ++ b) = requestsOf a ++ requestsOf b.
Proof.
  induction a as [|e a IH]; simpl; auto.
  destruct e; simpl; now rewrite IH.
Qed.

Lemma In_requestsOf (c : Call) (es : list (Effect Call)) :
  In c (requestsOf es) <-> In (Request c) es.
Proof.
  induction es as [|e es IH]; simpl.
  - tauto.
  - destruct e; simpl; rewrite IH; intuition (try discriminate; congruence).
Qed.

Lemma filter_removeNth (p : Call -> bool) (l : list Call) (i : nat) (c : Call) :
  nth_error l i = Some c ->
  List.length (filter p l) =
  (List.length (filter p (removeNth i l)) + if p c then 1 else 0)%nat.
Proof.
  revert i. induction l as [|x l IH]; intros [|i]; simpl; try discriminate.
  - intros E. injection E as ->. destruct (p c); simpl; lia.
  - intros E. apply IH in E. destruct (p x); simpl; lia.
Qed.

Lemma length_removeNth (l : list Call) (i : nat) (c : Call) :
  nth_error l i = Some c ->
  List.length l = S (List.length (removeNth i l)).
Proof.
  revert i. induction l as [|x l IH]; intros [|i]; simpl; try discriminate.
  - reflexivity.
  - intros E. apply IH in E. lia.
Qed.

Lemma In_removeNth (l : list Call) (i : nat) (c : Call) :
  In c (removeNth i l) -> In c l.
Proof.
  revert i. induction l as [|x l IH]; intros [|i]; simpl; auto.
  intros [E|E]; eauto.
Qed.

End Worlds.

(** An invariant of every step holds after every trace. *)
Lemma fold_left_invariant {A B} (P : A -> Prop) (f : A -> B -> A) :
  (forall a b, P a -> P (f a b)) ->
  forall l a, P a -> P (fold_left f l a).
Proof.
  intros Hstep l. induction l as [|b l IH]; simpl; auto.
Qed.

(** The same, when the steps preserve it only for the events that
    satisfy [Q]. *)
Lemma fold_left_invariant_on {A B} (P : A -> Prop) (Q : B -> Prop)
  (f : A -> B -> A) :
  (forall a b, Q b -> P a -> P (f a b)) ->
  forall l a, Forall Q l -> P a -> P (fold_left f l a).
Proof.
  intros Hstep l. induction l as [|b l IH]; simpl; auto.
  intros a HQ Ha. inversion HQ; subst. auto.
Qed.

End ReactFacts.

(* ================================================================== *)
(** * Upload pages: only accepted files are selected or sent *)
(* ================================================================== *)

Module UploadFacts.
Import Js React Upload ReactFacts.

Lemma accepted_iff (file : File) :
  accepted file = true <->
  endsWith (name file) (lit ".pdf") = true \/
  endsWith (name file) (lit ".docx") = true.
Proof. unfold accepted. apply orb_true_iff. Qed.

(** Take membership in a short concrete list of effects apart. *)
Ltac split_in :=
  repeat match goal with
  | H : In _ (_ ++ _) |- _ => apply in_app_or in H; destruct H as [H|H]
  | H : In _ (_ :: _) |- _ => destruct H as [H|H]
  | H : In _ [] |- _ => destruct H
  | H : _ \/ _ |- _ => destruct H as [H|H]
  | H : False |- _ => destruct H
  | H : _ = _ |- _ => discriminate H
  | H : Request _ = Request _ |- _ => inversion H; subst; clear H
  | H : Some _ = Some _ |- _ => inversion H; subst; clear H
  end.

(** Both halves of a file invariant after a committed handler. *)
Ltac after_commit :=
  split; intros;
  repeat match goal with
  | H : context [ui (commit _ _)] |- _ => rewrite ui_commit in H
  | H : context [notices (commit _ _)] |- _ => rewrite notices_commit in H
  end;
  unfold bind, read, stateOf, effectsOf in *; simpl in *;
  repeat match goal with
  | E : ?x = _, H : context [match ?x with _ => _ end] |- _ =>
      rewrite E in H; simpl in H
  end;
  split_in; eauto;
  try match goal with
      | Hs : forall f, _ = Some f -> accepted f = true |- _ =>
          apply Hs; congruence
      end.

(** ** The resume page *)


Lemma resume_mount_accepted :
  ResumePage.resumeFilesAccepted ResumePage.mount.
Proof. unfold ResumePage.mount. after_commit. Qed.

Lemma resume_step_accepted (w : ResumePage.W) (e : ResumePage.Event) :
  ResumePage.resumeFilesAccepted w ->
  ResumePage.resumeFilesAccepted (ResumePage.step w e).
Proof.
  intros [Hsel Hsent].
  destruct e as [files| |v| |i r]; simpl.
  - (* a file is picked *)
    unfold ResumePage.handleFileChange.
    destruct (files0 files) as [file|]; [|after_commit].
    destruct (accepted file) eqn:Eacc; after_commit.
  - (* the upload button *)
    destruct (ResumePage.uploadEnabled (ui w)); [|now split].
    unfold ResumePage.handleUpload.
    destruct (ResumePage.selectedFile (ui w)) as [file|] eqn:Esel;
      after_commit.
  - (* the job description is edited *)
    after_commit.
  - (* the screening button *)
    destruct (ResumePage.screenEnabled (ui w)); [|now split].
    unfold ResumePage.handleScreenResumes.
    destruct (negb (truthyStr (trim (ResumePage.jobDescription (ui w)))))
      eqn:Ejd;
      [|destruct (List.length (ResumePage.resumes (ui w)) =? 0)%nat eqn:Elen];
      after_commit.
  - (* a request settles *)
    unfold settle.
    destruct (nth_error (inflight w) i) as [c|]; [|now split].
    destruct c, r; after_commit.
Qed.

Lemma resume_run_accepted (evs : list ResumePage.Event) :
  ResumePage.resumeFilesAccepted (ResumePage.run evs).
Proof.
  unfold ResumePage.run.
  apply (fold_left_invariant ResumePage.resumeFilesAccepted).
  - intros a b. apply resume_step_accepted.
  - apply resume_mount_accepted.
Qed.

(** ** The document page *)


Lemma documents_mount_accepted :
  DocumentsPage.documentFilesAccepted DocumentsPage.mount.
Proof. unfold DocumentsPage.mount. after_commit. Qed.

Lemma documents_step_accepted (w : DocumentsPage.W) (e : DocumentsPage.Event) :
  DocumentsPage.documentFilesAccepted w ->
  DocumentsPage.documentFilesAccepted (DocumentsPage.step w e).
Proof.
  intros [Hsel Hsent].
  destruct e as [files| |c|i r]; simpl.
  - unfold DocumentsPage.handleFileChange.
    destruct (files0 files) as [file|]; [|after_commit].
    destruct (accepted file) eqn:Eacc; after_commit.
  - destruct (DocumentsPage.uploadEnabled (ui w)); [|now split].
    unfold DocumentsPage.handleUpload.
    destruct (DocumentsPage.selectedFile (ui w)) as [file|] eqn:Esel;
      after_commit.
  - after_commit.
  - unfold settle.
    destruct (nth_error (inflight w) i) as [c|]; [|now split].
    destruct c, r; after_commit.
Qed.

Lemma documents_run_accepted (evs : list DocumentsPage.Event) :
  DocumentsPage.documentFilesAccepted (DocumentsPage.run evs).
Proof.
  unfold DocumentsPage.run.
  apply (fold_left_invariant DocumentsPage.documentFilesAccepted).
  - intros a b. apply documents_step_accepted.
  - apply documents_mount_accepted.
Qed.

End UploadFacts.

(* ================================================================== *)
(** * The chat page: one exchange at a time, one session id *)
(* ================================================================== *)

Module ChatFacts.
Import Js React ReactFacts ChatPage.

(** [handleSend] returns at once when its guard holds. *)
Lemma chat_handleSend_guarded (st : State) :
  negb (truthyStr (trim (input st))) || loading st = true ->
  handleSend st = (tt, st, []).
Proof.
  intros G. unfold handleSend, bind, read. now rewrite G.
Qed.

(** Otherwise it clears the field, appends the user turn, raises
    [loading] and issues one request. *)
Lemma chat_handleSend_accepted (st : State) :
  negb (truthyStr (trim (input st))) || loading st = false ->
  handleSend st =
  (tt,
   mkState (messages st ++ [userTurn (input st)]) [] true (sessionId st),
   [Request (PostChat (sessionId st) (input st))]).
Proof.
  intros G. unfold handleSend, bind, read. now rewrite G.
Qed.

(** A rejected exchange only lowers [loading] and reports the error. *)
Lemma chat_resume_rejected (st : State) :
  handleSend_resume Rejected st =
  (tt, mkState (messages st) (input st) false (sessionId st),
   [ConsoleError "Error sending message:";
    Toast TError "Failed to send message. Please try again."]).
Proof. reflexivity. Qed.

(** A fulfilled one appends the assistant turn. *)
Lemma chat_resume_fulfilled (st : State) (d : Data) :
  handleSend_resume (Fulfilled d) st =
  (tt,
   mkState (messages st ++ [assistantTurn d]) (input st) false (sessionId st),
   if truthy (data_escalated d)
   then [Toast TWarning "This query has been escalated to HR team"]
   else []).
Proof.
  unfold handleSend_resume, bind, when. simpl.
  now destruct (truthy (data_escalated d)).
Qed.


Lemma chat_mount_inv (now : Z) : chatInv now (mount now).
Proof. split; reflexivity. Qed.

Lemma chat_commit_handleSend (now : Z) (w : W) :
  chatInv now w -> chatInv now (commit w handleSend).
Proof.
  intros [Hsid Hone].
  destruct (negb (truthyStr (trim (input (ui w)))) || loading (ui w)) eqn:G.
  - rewrite commit_idle by now apply chat_handleSend_guarded.
    now split.
  - unfold chatInv, exchangesInFlight.
    rewrite ui_commit, inflight_commit, chat_handleSend_accepted by exact G.
    apply orb_false_elim in G as [_ Hl].
    unfold exchangesInFlight in Hone. rewrite Hl in Hone.
    simpl. rewrite filter_app, length_app, Hone. simpl. auto.
Qed.

Lemma chat_step_inv (now : Z) (w : W) (e : Event) :
  chatInv now w -> chatInv now (step w e).
Proof.
  intros Inv. destruct e as [v| | |i r]; simpl.
  - destruct (inputEnabled (ui w)); auto.
    destruct Inv as [Hsid Hone]. unfold chatInv, exchangesInFlight in *.
    rewrite ui_commit, inflight_commit. simpl. now rewrite app_nil_r.
  - destruct (inputEnabled (ui w)); auto using chat_commit_handleSend.
  - destruct (sendEnabled (ui w)); auto using chat_commit_handleSend.
  - unfold settle.
    destruct (nth_error (inflight w) i) as [c|] eqn:Ei; auto.
    destruct Inv as [Hsid Hone]. unfold chatInv, exchangesInFlight in *.
    rewrite (filter_removeNth isExchange _ _ Ei) in Hone.
    rewrite ui_commit, inflight_commit. simpl.
    destruct c as [sid|sid m]; simpl in *.
    + (* the history load settles *)
      rewrite Nat.add_0_r in Hone.
      destruct r as [d|]; simpl.
      * destruct (data_messages d); simpl; rewrite app_nil_r; now split.
      * rewrite app_nil_r. now split.
    + (* a chat exchange settles *)
      destruct (loading (ui w)); [|rewrite Nat.add_1_r in Hone; discriminate].
      rewrite Nat.add_1_r in Hone. injection Hone as Hone.
      destruct r as [d|].
      * rewrite chat_resume_fulfilled.
        destruct (truthy (data_escalated d)); simpl; rewrite app_nil_r;
          now split.
      * rewrite chat_resume_rejected. simpl. rewrite app_nil_r. now split.
Qed.

Lemma chat_run_inv (now : Z) (evs : list Event) : chatInv now (run now evs).
Proof.
  unfold run. apply (fold_left_invariant (chatInv now)).
  - intros a b. apply chat_step_inv.
  - apply chat_mount_inv.
Qed.

End ChatFacts.

(* ================================================================== *)
(** * The interview page: lifecycle, single exchange, final score *)
(* ================================================================== *)

Module InterviewFacts.
Import Js React ReactFacts InterviewPage.

(** ** What each handler computes *)

Lemma interview_handleSend_guarded (st : State) :
  negb (truthyStr (trim (input st))) || loading st || completed st = true ->
  handleSend st = (tt, st, []).
Proof.
  intros G. unfold handleSend, bind, read. now rewrite G.
Qed.

Lemma interview_handleSend_accepted (st : State) :
  negb (truthyStr (trim (input st))) || loading st || completed st = false ->
  handleSend st =
  (tt,
   mkState (sessionStarted st) (candidateName st) (position st)
           (messages st ++ [userTurn (input st)]) [] true (completed st)
           (evaluation st) (sessionId st),
   [Request (PostInterview (sessionId st) (candidateName st) (position st)
                           (Some (input st)))]).
Proof.
  intros G. unfold handleSend, bind, read. now rewrite G.
Qed.

Lemma interview_answer_rejected (st : State) :
  handleSend_resume Rejected st =
  (tt,
   mkState (sessionStarted st) (candidateName st) (position st) (messages st)
           (input st) false (completed st) (evaluation st) (sessionId st),
   [ConsoleError "Error sending message:";
    Toast TError "Failed to send message"]).
Proof. reflexivity. Qed.

(** A fulfilled answer appends the assistant turn; when the response
    says [completed] it also raises the flag and stores the evaluation. *)
Lemma interview_answer_fulfilled (st : State) (d : Data) :
  handleSend_resume (Fulfilled d) st =
  if truthy (data_completed d)
  then
    (tt,
     mkState (sessionStarted st) (candidateName st) (position st)
             (messages st ++ [assistantTurn d]) (input st) false true
             (Some (mkEvaluation (data_score d) (data_response d)))
             (sessionId st),
     [Toast TSuccess "Interview completed!"])
  else
    (tt,
     mkState (sessionStarted st) (candidateName st) (position st)
             (messages st ++ [assistantTurn d]) (input st) false
             (completed st) (evaluation st) (sessionId st),
     []).
Proof.
  unfold handleSend_resume, bind, when. simpl.
  now destruct (truthy (data_completed d)).
Qed.


Lemma interview_start_blank (st : State) :
  namesGiven st = false ->
  startInterview st =
  (tt, st, [Toast TError "Please enter candidate name and position"]).
Proof.
  unfold namesGiven. intros E. unfold startInterview, bind, read. simpl.
  now rewrite <- negb_andb, E.
Qed.

Lemma interview_start_accepted (st : State) :
  namesGiven st = true ->
  startInterview st =
  (tt,
   mkState (sessionStarted st) (candidateName st) (position st) (messages st)
           (input st) true (completed st) (evaluation st) (sessionId st),
   [Request (PostInterview (sessionId st) (candidateName st) (position st)
                           None)]).
Proof.
  unfold namesGiven. intros E. unfold startInterview, bind, read. simpl.
  now rewrite <- negb_andb, E.
Qed.

Lemma interview_start_rejected (st : State) :
  startInterview_resume Rejected st =
  (tt,
   mkState (sessionStarted st) (candidateName st) (position st) (messages st)
           (input st) false (completed st) (evaluation st) (sessionId st),
   [ConsoleError "Error starting interview:";
    Toast TError "Failed to start interview"]).
Proof. reflexivity. Qed.

(** A fulfilled start replaces the transcript by the opening turn. *)
Lemma interview_start_fulfilled (st : State) (d : Data) :
  startInterview_resume (Fulfilled d) st =
  (tt,
   mkState true (candidateName st) (position st) [assistantTurn d]
           (input st) false (completed st) (evaluation st) (sessionId st),
   []).
Proof. reflexivity. Qed.


(** ** What holds after every trace *)


Lemma interview_mount_inv (now : Z) : interviewInv now (mount now).
Proof.
  constructor; simpl; auto; try discriminate.
  split; [intros E; now elim E | discriminate].
Qed.

(** A world whose state differs from an invariant one only in the text
    fields is invariant too. *)
Lemma interview_inv_text (now : Z) (w : W) (st : State) :
  interviewInv now w ->
  sessionId st = sessionId (ui w) ->
  loading st = loading (ui w) ->
  completed st = completed (ui w) ->
  evaluation st = evaluation (ui w) ->
  sessionStarted st = sessionStarted (ui w) ->
  forall es, requestsOf es = [] ->
  interviewInv now (mkWorld st (inflight w ++ requestsOf es) (notices w ++ es)).
Proof.
  intros [Hsid Hone Hev Hdone Hans] E1 E2 E3 E4 E5 es Ees.
  constructor; simpl; rewrite ?Ees, ?app_nil_r, ?E1, ?E2, ?E3, ?E4, ?E5; auto.
Qed.

Lemma interview_commit_text (now : Z) (w : W) (h : H unit) :
  interviewInv now w ->
  sessionId (stateOf (h (ui w))) = sessionId (ui w) ->
  loading (stateOf (h (ui w))) = loading (ui w) ->
  completed (stateOf (h (ui w))) = completed (ui w) ->
  evaluation (stateOf (h (ui w))) = evaluation (ui w) ->
  sessionStarted (stateOf (h (ui w))) = sessionStarted (ui w) ->
  requestsOf (effectsOf (h (ui w))) = [] ->
  interviewInv now (commit w h).
Proof.
  intros Inv E1 E2 E3 E4 E5 E6.
  unfold commit. unfold stateOf, effectsOf in *.
  destruct (h (ui w)) as [[u st] es]. simpl in *.
  now apply interview_inv_text.
Qed.

Lemma interview_commit_handleSend (now : Z) (w : W) :
  interviewInv now w -> sessionStarted (ui w) = true ->
  interviewInv now (commit w handleSend).
Proof.
  intros Inv Hss.
  destruct (negb (truthyStr (trim (input (ui w)))) || loading (ui w)
            || completed (ui w)) eqn:G.
  - now rewrite commit_idle by now apply interview_handleSend_guarded.
  - destruct Inv as [Hsid Hone Hev Hdone Hans].
    pose proof G as G'.
    apply orb_false_elim in G' as [G' Hc].
    apply orb_false_elim in G' as [_ Hl].
    rewrite Hl in Hone. apply length_zero_iff_nil in Hone.
    constructor; rewrite ?ui_commit, ?inflight_commit,
      interview_handleSend_accepted by exact G; simpl; auto.
    + now rewrite Hone.
    + rewrite Hc. discriminate.
Qed.

(** Close a field of the invariant once the new state is explicit. *)
Ltac settled :=
  auto; try congruence;
  try (intros; discriminate);
  try (split; [auto | discriminate]);
  try (intros ? ? ? ? []).

Lemma interview_step_inv (now : Z) (w : W) (e : Event) :
  interviewInv now w -> interviewInv now (step w e).
Proof.
  intros Inv. destruct e as [v|v| |v| | |i r]; simpl.
  - destruct (startFormShown (ui w)); auto.
    now apply interview_commit_text.
  - destruct (startFormShown (ui w)); auto.
    now apply interview_commit_text.
  - (* the start button *)
    unfold startEnabled, startFormShown.
    destruct (sessionStarted (ui w)) eqn:Hss; simpl; auto.
    destruct (loading (ui w)) eqn:Hl; simpl; auto.
    destruct (namesGiven (ui w)) eqn:Hn.
    + destruct Inv as [Hsid Hone Hev Hdone Hans].
      rewrite Hl in Hone. apply length_zero_iff_nil in Hone.
      constructor; rewrite ?ui_commit, ?inflight_commit,
        interview_start_accepted by exact Hn; simpl; auto.
      * now rewrite Hone.
      * intros Hc. apply Hdone in Hc as [Hc _]. congruence.
      * rewrite Hone. simpl. intros sid n p m [E|[]]. discriminate.
    + apply interview_commit_text; auto;
        now rewrite interview_start_blank by exact Hn.
  - destruct (inputEnabled (ui w)); auto.
    now apply interview_commit_text.
  - unfold inputEnabled, answerBarShown.
    destruct (sessionStarted (ui w)) eqn:Hss; simpl; auto.
    destruct (negb (completed (ui w)) && negb (loading (ui w))); auto.
    now apply interview_commit_handleSend.
  - unfold sendEnabled, answerBarShown.
    destruct (sessionStarted (ui w)) eqn:Hss; simpl; auto.
    match goal with |- context [if ?b then _ else _] => destruct b end; auto.
    now apply interview_commit_handleSend.
  - (* a request settles *)
    unfold settle.
    destruct (nth_error (inflight w) i) as [c|] eqn:Ei; auto.
    destruct Inv as [Hsid Hone Hev Hdone Hans].
    pose proof (nth_error_In _ _ Ei) as Hin.
    rewrite (length_removeNth _ _ Ei) in Hone.
    destruct (loading (ui w)) eqn:Hl; [|discriminate].
    injection Hone as Hone. apply length_zero_iff_nil in Hone.
    assert (Hnc : completed (ui w) = false).
    { destruct (completed (ui w)); auto.
      destruct (Hdone eq_refl). discriminate. }
    destruct c as [sid n p [m|]]; simpl.
    + (* an answer *)
      specialize (Hans _ _ _ _ Hin).
      destruct r as [d|].
      * constructor; rewrite ?ui_commit, ?inflight_commit; simpl;
          rewrite interview_answer_fulfilled;
          destruct (truthy (data_completed d)); simpl; rewrite ?Hone;
          settled.
      * constructor; rewrite ?ui_commit, ?inflight_commit; simpl;
          rewrite ?Hone; settled.
    + (* the start *)
      destruct r as [d|];
        constructor; rewrite ?ui_commit, ?inflight_commit; simpl;
        rewrite ?Hone; settled.
Qed.

Lemma interview_run_inv (now : Z) (evs : list Event) :
  interviewInv now (run now evs).
Proof.
  unfold run. apply (fold_left_invariant (interviewInv now)).
  - intros a b. apply interview_step_inv.
  - apply interview_mount_inv.
Qed.

End InterviewFacts.

(* ================================================================== *)
(** * Result reconciliation *)
(* ================================================================== *)

(** C1: whenever the last screening run is not empty, the displayed
    list is that run itself, element for element and in the order the
    engine returned it, whatever the catalog holds. *)
Theorem C1_display_last_run
  (screenResults resumes : list ResumePage.Item) :
  screenResults <> [] ->
  ResumePage.displayResults screenResults resumes = screenResults.
Proof.
  intros Hne. unfold ResumePage.displayResults.
  destruct screenResults as [|r rs]; [now elim Hne | reflexivity].
Qed.

Lemma C1_display_last_run_witness :
  Samples.lastRun <> [] /\
  ResumePage.displayResults Samples.lastRun Samples.catalog = Samples.lastRun.
Proof.
  split.
  - discriminate.
  - apply C1_display_last_run. discriminate.
Defined.

(** C2, as stated, fails: a catalog item whose score is 0 has a defined
    score, yet the fallback list leaves it out. *)
Lemma C2_zero_score_dropped :
  ResumePage.displayResults [] Samples.zeroScored <>
  ResumePage.resolveDisplayList_asSpecified [] Samples.zeroScored.
Proof. vm_compute. discriminate. Qed.

(** C2, amended: with an empty last run the displayed list is the
    catalog filtered, in catalog order, to the items whose score is
    truthy.  Every item shown has a defined score; an item with a
    numeric score is shown exactly when that score is not 0; items whose
    score is absent or null are left out. *)
Theorem C2_fallback_keeps_truthy_scores (resumes : list ResumePage.Item) :
  ResumePage.displayResults [] resumes =
    filter (fun r => Js.truthy (ResumePage.score r)) resumes /\
  (forall r, In r (ResumePage.displayResults [] resumes) ->
             In r resumes /\ Js.isDefined (ResumePage.score r) = true) /\
  (forall r q, In r resumes -> ResumePage.score r = Js.JNum q ->
               (In r (ResumePage.displayResults [] resumes) <-> ~ q == 0)) /\
  (forall r, In r (ResumePage.displayResults [] resumes) ->
             ResumePage.score r <> Js.JUndefined /\
             ResumePage.score r <> Js.JNull).
Proof.
  assert (E : ResumePage.displayResults [] resumes =
              filter (fun r => Js.truthy (ResumePage.score r)) resumes)
    by reflexivity.
  rewrite E. split; [reflexivity | split; [|split]].
  - intros r Hin. apply filter_In in Hin as [Hin Ht].
    split; auto. now apply JsFacts.truthy_isDefined.
  - intros r q Hin Hq. rewrite filter_In, Hq, JsFacts.truthy_JNum. tauto.
  - intros r Hin. apply filter_In in Hin as [_ Ht].
    split; intros E'; rewrite E' in Ht; discriminate.
Qed.

Lemma C2_fallback_keeps_truthy_scores_witness :
  ResumePage.displayResults [] Samples.catalog =
  [Samples.catalogItem "r2" "bob.docx" (Js.JNum 74);
   Samples.catalogItem "r1" "ada.pdf" (Js.JNum 91)].
Proof.
  rewrite (proj1 (C2_fallback_keeps_truthy_scores Samples.catalog)).
  reflexivity.
Defined.

(* ================================================================== *)
(** * File selection *)
(* ================================================================== *)

(** C10: on both upload pages, picking a file whose name ends in neither
    .pdf nor .docx leaves the page state as it was, so a file selected
    before stays selected; after every sequence of events the selected
    file, if any, has an accepted name, and so has every file ever sent
    in an upload request. *)
Theorem C10_only_accepted_files_selected :
  (forall st files f,
      Upload.files0 files = Some f -> Upload.accepted f = false ->
      React.stateOf (ResumePage.handleFileChange files st) = st /\
      React.requestsOf
        (React.effectsOf (ResumePage.handleFileChange files st)) = []) /\
  (forall st files f,
      Upload.files0 files = Some f -> Upload.accepted f = false ->
      React.stateOf (DocumentsPage.handleFileChange files st) = st /\
      React.requestsOf
        (React.effectsOf (DocumentsPage.handleFileChange files st)) = []) /\
  (forall evs f,
      ResumePage.selectedFile (React.ui (ResumePage.run evs)) = Some f ->
      Upload.accepted f = true) /\
  (forall evs f,
      DocumentsPage.selectedFile (React.ui (DocumentsPage.run evs)) = Some f ->
      Upload.accepted f = true) /\
  (forall evs f,
      In (React.Request (ResumePage.PostUploadResume f))
         (React.notices (ResumePage.run evs)) ->
      Upload.accepted f = true) /\
  (forall evs f t,
      In (React.Request (DocumentsPage.PostUploadDocument f t))
         (React.notices (DocumentsPage.run evs)) ->
      Upload.accepted f = true).
Proof.
  split; [|split; [|split; [|split; [|split]]]].
  - intros st files f Hf Hacc.
    unfold ResumePage.handleFileChange. rewrite Hf, Hacc. now split.
  - intros st files f Hf Hacc.
    unfold DocumentsPage.handleFileChange. rewrite Hf, Hacc. now split.
  - intros evs f. apply (UploadFacts.resume_run_accepted evs).
  - intros evs f. apply (UploadFacts.documents_run_accepted evs).
  - intros evs f. apply (UploadFacts.resume_run_accepted evs).
  - intros evs f t. apply (UploadFacts.documents_run_accepted evs).
Qed.

Lemma C10_only_accepted_files_selected_witness :
  ResumePage.selectedFile
    (React.stateOf
       (ResumePage.handleFileChange [Samples.notesTxt] Samples.resumeSelected))
  = Some Samples.cvPdf /\
  DocumentsPage.selectedFile
    (React.stateOf
       (DocumentsPage.handleFileChange [Samples.notesTxt]
                                       Samples.documentSelected))
  = Some Samples.cvPdf.
Proof.
  destruct C10_only_accepted_files_selected as (Hr & Hd & _).
  split.
  - rewrite (proj1 (Hr Samples.resumeSelected [Samples.notesTxt]
                       Samples.notesTxt eq_refl eq_refl)).
    reflexivity.
  - rewrite (proj1 (Hd Samples.documentSelected [Samples.notesTxt]
                       Samples.notesTxt eq_refl eq_refl)).
    reflexivity.
Defined.

(* ================================================================== *)
(** * Rejected sends *)
(* ================================================================== *)

(** C6: once the interview is completed, [handleSend] returns at once:
    the state, and with it the transcript, is unchanged and no request
    is issued.  The same holds of the Enter key and the send button of
    the page. *)
Theorem C6_no_answer_after_completion (st : InterviewPage.State) :
  InterviewPage.completed st = true ->
  InterviewPage.handleSend st = (tt, st, []) /\
  (forall w, React.ui w = st ->
             InterviewPage.step w InterviewPage.PressEnter = w /\
             InterviewPage.step w InterviewPage.ClickSend = w).
Proof.
  intros Hc. split.
  - apply InterviewFacts.interview_handleSend_guarded.
    rewrite Hc. apply orb_true_r.
  - intros w <-. simpl.
    unfold InterviewPage.inputEnabled, InterviewPage.sendEnabled,
      InterviewPage.answerBarShown.
    rewrite Hc. simpl. rewrite !andb_false_r. simpl. auto.
Qed.

Lemma C6_no_answer_after_completion_witness :
  InterviewPage.handleSend Samples.finished = (tt, Samples.finished, []).
Proof.
  apply (C6_no_answer_after_completion Samples.finished). reflexivity.
Defined.

(** C7: a chat message that is empty or holds only white space trims to
    the empty string, and sending it does nothing: [handleSend] leaves
    the state, and with it the transcript, unchanged and issues no
    request, whether it is reached by the Enter key or by the button. *)
Theorem C7_blank_message_not_sent (st : ChatPage.State) :
  forallb Js.isWhiteSpace (ChatPage.input st) = true ->
  Js.trim (ChatPage.input st) = [] /\
  ChatPage.handleSend st = (tt, st, []) /\
  (forall w, React.ui w = st ->
             ChatPage.step w ChatPage.PressEnter = w /\
             ChatPage.step w ChatPage.ClickSend = w).
Proof.
  intros Hws. apply JsFacts.trim_nil_iff in Hws.
  assert (Hs : ChatPage.handleSend st = (tt, st, [])).
  { apply ChatFacts.chat_handleSend_guarded. now rewrite Hws. }
  repeat split; auto.
  - subst st. simpl. destruct (ChatPage.inputEnabled (React.ui w)); auto.
    now apply ReactFacts.commit_idle.
  - subst st. simpl. destruct (ChatPage.sendEnabled (React.ui w)); auto.
    now apply ReactFacts.commit_idle.
Qed.

Lemma C7_blank_message_not_sent_witness :
  ChatPage.handleSend Samples.chatBlank = (tt, Samples.chatBlank, []).
Proof.
  apply (C7_blank_message_not_sent Samples.chatBlank). reflexivity.
Defined.

(** C8: in the chat and in the interview at most one exchange is in
    flight after every sequence of events.  [handleSend] called while
    [loading] is raised returns at once, changing nothing and issuing no
    request; and while an exchange is in flight [loading] is raised, so
    the Enter key, the send button and the start button leave the page
    as it is: the new request is dropped, not queued. *)
Theorem C8_one_exchange_in_flight :
  (forall st, ChatPage.loading st = true ->
              ChatPage.handleSend st = (tt, st, [])) /\
  (forall st, InterviewPage.loading st = true ->
              InterviewPage.handleSend st = (tt, st, [])) /\
  (forall now evs,
      let w := ChatPage.run now evs in
      (List.length (ChatPage.exchangesInFlight w) <= 1)%nat /\
      (ChatPage.exchangesInFlight w <> [] ->
       ChatPage.loading (React.ui w) = true /\
       ChatPage.step w ChatPage.PressEnter = w /\
       ChatPage.step w ChatPage.ClickSend = w)) /\
  (forall now evs,
      let w := InterviewPage.run now evs in
      (List.length (React.inflight w) <= 1)%nat /\
      (React.inflight w <> [] ->
       InterviewPage.loading (React.ui w) = true /\
       InterviewPage.step w InterviewPage.PressEnter = w /\
       InterviewPage.step w InterviewPage.ClickSend = w /\
       InterviewPage.step w InterviewPage.ClickStart = w)).
Proof.
  split; [|split; [|split]].
  - intros st Hl. apply ChatFacts.chat_handleSend_guarded.
    rewrite Hl. apply orb_true_r.
  - intros st Hl. apply InterviewFacts.interview_handleSend_guarded.
    rewrite Hl. now rewrite orb_true_r.
  - intros now evs w.
    destruct (ChatFacts.chat_run_inv now evs) as [_ Hone]. fold w in Hone.
    split.
    + rewrite Hone. destruct (ChatPage.loading (React.ui w)); auto.
    + intros Hne.
      assert (Hl : ChatPage.loading (React.ui w) = true).
      { destruct (ChatPage.loading (React.ui w)); auto.
        apply length_zero_iff_nil in Hone. contradiction. }
      simpl. unfold ChatPage.inputEnabled, ChatPage.sendEnabled.
      rewrite Hl. simpl. auto.
  - intros now evs w.
    destruct (InterviewFacts.interview_run_inv now evs)
      as [_ Hone _ _ _]. fold w in Hone.
    split.
    + rewrite Hone. destruct (InterviewPage.loading (React.ui w)); auto.
    + intros Hne.
      assert (Hl : InterviewPage.loading (React.ui w) = true).
      { destruct (InterviewPage.loading (React.ui w)); auto.
        apply length_zero_iff_nil in Hone. contradiction. }
      simpl.
      unfold InterviewPage.inputEnabled, InterviewPage.sendEnabled,
        InterviewPage.startEnabled.
      rewrite Hl. simpl. rewrite !andb_false_r. auto.
Qed.

Lemma C8_one_exchange_in_flight_witness :
  ChatPage.handleSend Samples.chatPending = (tt, Samples.chatPending, []) /\
  InterviewPage.handleSend Samples.awaitingReply =
  (tt, Samples.awaitingReply, []).
Proof.
  destruct C8_one_exchange_in_flight as (Hc & Hi & _).
  split.
  - apply (Hc Samples.chatPending). reflexivity.
  - apply (Hi Samples.awaitingReply). reflexivity.
Defined.

(* ================================================================== *)
(** * Session identity *)
(* ================================================================== *)

Lemma chat_sessionIdOf (now : Z) :
  Sessions.sessionIdOf Sessions.Chat now = ChatPage.sessionId_init now.
Proof. reflexivity. Qed.

Lemma interview_sessionIdOf (now : Z) :
  Sessions.sessionIdOf Sessions.Interview now =
  InterviewPage.sessionId_init now.
Proof. reflexivity. Qed.

(** Two page views get the same id only when they are of the same kind
    and were mounted at the same clock reading. *)
Lemma sessionIdOf_inj (k1 k2 : Sessions.Kind) (t1 t2 : Z) :
  Sessions.sessionIdOf k1 t1 = Sessions.sessionIdOf k2 t2 ->
  k1 = k2 /\ t1 = t2.
Proof.
  destruct k1, k2; rewrite ?chat_sessionIdOf, ?interview_sessionIdOf;
    unfold ChatPage.sessionId_init, InterviewPage.sessionId_init; intros E.
  - apply app_inv_head in E. apply JsFacts.numberToString_inj in E. auto.
  - discriminate E.
  - discriminate E.
  - apply app_inv_head in E. apply JsFacts.numberToString_inj in E. auto.
Qed.

(** C9: the session id is made once, at mount, from the page kind and
    the millisecond clock reading, and no event of the page changes it.
    Two session creations hold different ids unless they are of the same
    kind and read the same millisecond, the one event left to chance:
    the ids of creations with pairwise different (kind, reading) pairs
    are pairwise different. *)
Theorem C9_session_id_fixed_by_kind_and_clock :
  (forall now evs,
      ChatPage.sessionId (React.ui (ChatPage.run now evs)) =
      Sessions.sessionIdOf Sessions.Chat now) /\
  (forall now evs,
      InterviewPage.sessionId (React.ui (InterviewPage.run now evs)) =
      Sessions.sessionIdOf Sessions.Interview now) /\
  (forall k1 t1 k2 t2,
      Sessions.sessionIdOf k1 t1 = Sessions.sessionIdOf k2 t2 <->
      k1 = k2 /\ t1 = t2) /\
  (forall views,
      NoDup views -> Sessions.pairwiseDistinct (Sessions.sessionIds views)).
Proof.
  split; [|split; [|split]].
  - intros now evs. apply (ChatFacts.chat_run_inv now evs).
  - intros now evs. apply (InterviewFacts.interview_run_inv now evs).
  - intros k1 t1 k2 t2. split.
    + apply sessionIdOf_inj.
    + intros [-> ->]. reflexivity.
  - intros views Hnd i j a b Hij Hi Hj Hab. subst b.
    unfold Sessions.sessionIds in *. rewrite nth_error_map in Hi, Hj.
    destruct (nth_error views i) as [[k1 t1]|] eqn:Ei; [|discriminate].
    destruct (nth_error views j) as [[k2 t2]|] eqn:Ej; [|discriminate].
    simpl in *. injection Hi as Hi. injection Hj as Hj.
    rewrite <- Hj in Hi.
    apply sessionIdOf_inj in Hi as [-> ->].
    apply Hij. apply (proj1 (NoDup_nth_error views) Hnd).
    + apply nth_error_Some. rewrite Ei. discriminate.
    + congruence.
Qed.

Lemma C9_session_id_fixed_by_kind_and_clock_witness :
  Sessions.pairwiseDistinct
    (Sessions.sessionIds [(Sessions.Chat, 1700000000000%Z);
                          (Sessions.Interview, 1700000000000%Z);
                          (Sessions.Chat, 1700000000001%Z)]).
Proof.
  apply C9_session_id_fixed_by_kind_and_clock.
  repeat constructor; simpl; intuition discriminate.
Defined.

(* ================================================================== *)
(** * The interview lifecycle *)
(* ================================================================== *)

Lemma phase_completed (st : InterviewPage.State) :
  InterviewPage.phase st = InterviewPage.Completed <->
  InterviewPage.completed st = true.
Proof.
  unfold InterviewPage.phase.
  destruct (InterviewPage.completed st), (InterviewPage.sessionStarted st);
    split; congruence.
Qed.

(** After any trace, a page that left [NotStarted] shows the transcript
    view. *)
Lemma interview_started_after_start (now : Z) (w : InterviewPage.W) :
  InterviewPage.interviewInv now w ->
  InterviewPage.phase (React.ui w) <> InterviewPage.NotStarted ->
  InterviewPage.sessionStarted (React.ui w) = true.
Proof.
  intros Inv Hp. unfold InterviewPage.phase in Hp.
  destruct (InterviewPage.completed (React.ui w)) eqn:Hc.
  - now apply (InterviewPage.inv_done Inv).
  - destruct (InterviewPage.sessionStarted (React.ui w)); auto;
      now elim Hp.
Qed.

(** A completed interview is frozen: no event changes the page. *)
Lemma interview_frozen (now : Z) (w : InterviewPage.W)
  (e : InterviewPage.Event) :
  InterviewPage.interviewInv now w ->
  InterviewPage.completed (React.ui w) = true ->
  InterviewPage.step w e = w.
Proof.
  intros Inv Hc.
  destruct (InterviewPage.inv_done Inv Hc) as [Hss Hl].
  pose proof (InterviewPage.inv_one Inv) as Hone.
  rewrite Hl in Hone. apply length_zero_iff_nil in Hone.
  destruct e; simpl;
    unfold InterviewPage.startEnabled, InterviewPage.startFormShown,
      InterviewPage.inputEnabled, InterviewPage.sendEnabled,
      InterviewPage.answerBarShown;
    rewrite ?Hss, ?Hc; simpl; auto.
  unfold React.settle. rewrite Hone. now destruct i.
Qed.

Lemma interview_frozen_run (now : Z) (w : InterviewPage.W)
  (more : list InterviewPage.Event) :
  InterviewPage.interviewInv now w ->
  InterviewPage.completed (React.ui w) = true ->
  fold_left InterviewPage.step more w = w.
Proof.
  intros Inv Hc. induction more as [|e more IH]; simpl; auto.
  now rewrite (interview_frozen e Inv Hc).
Qed.

(** The only step that raises [completed] is a fulfilled answer whose
    response says so; it stores the response's score. *)
Lemma interview_step_completes (w : InterviewPage.W)
  (e : InterviewPage.Event) :
  InterviewPage.completed (React.ui w) = false ->
  InterviewPage.completed (React.ui (InterviewPage.step w e)) = true ->
  exists i d,
    e = InterviewPage.Settle i (React.Fulfilled d) /\
    Js.truthy (InterviewPage.data_completed d) = true /\
    InterviewPage.finalScore (React.ui (InterviewPage.step w e)) =
    InterviewPage.data_score d.
Proof.
  intros Hc.
  destruct e as [v|v| |v| | |i r]; simpl.
  - destruct (InterviewPage.startFormShown (React.ui w)); simpl; congruence.
  - destruct (InterviewPage.startFormShown (React.ui w)); simpl; congruence.
  - destruct (InterviewPage.startEnabled (React.ui w)); [|congruence].
    rewrite ReactFacts.ui_commit.
    destruct (InterviewPage.namesGiven (React.ui w)) eqn:Hn.
    + rewrite InterviewFacts.interview_start_accepted by exact Hn.
      unfold React.stateOf. simpl. congruence.
    + rewrite InterviewFacts.interview_start_blank by exact Hn.
      unfold React.stateOf. simpl. congruence.
  - destruct (InterviewPage.inputEnabled (React.ui w)); simpl; congruence.
  - destruct (InterviewPage.inputEnabled (React.ui w)); [|congruence].
    rewrite ReactFacts.ui_commit.
    match goal with
    | |- context [InterviewPage.handleSend ?st] =>
        destruct (negb (Js.truthyStr (Js.trim (InterviewPage.input st)))
                  || InterviewPage.loading st || InterviewPage.completed st)
          eqn:G
    end.
    + rewrite InterviewFacts.interview_handleSend_guarded by exact G.
      unfold React.stateOf. simpl. congruence.
    + rewrite InterviewFacts.interview_handleSend_accepted by exact G.
      unfold React.stateOf. simpl. congruence.
  - destruct (InterviewPage.sendEnabled (React.ui w)); [|congruence].
    rewrite ReactFacts.ui_commit.
    match goal with
    | |- context [InterviewPage.handleSend ?st] =>
        destruct (negb (Js.truthyStr (Js.trim (InterviewPage.input st)))
                  || InterviewPage.loading st || InterviewPage.completed st)
          eqn:G
    end.
    + rewrite InterviewFacts.interview_handleSend_guarded by exact G.
      unfold React.stateOf. simpl. congruence.
    + rewrite InterviewFacts.interview_handleSend_accepted by exact G.
      unfold React.stateOf. simpl. congruence.
  - unfold React.settle.
    destruct (nth_error (React.inflight w) i) as [c|]; [|congruence].
    rewrite ReactFacts.ui_commit. simpl.
    destruct c as [sid n p [m|]]; simpl.
    + destruct r as [d|].
      * rewrite InterviewFacts.interview_answer_fulfilled.
        destruct (Js.truthy (InterviewPage.data_completed d)) eqn:Ht;
          unfold React.stateOf; simpl; [|congruence].
        intros _. now exists i, d.
      * unfold React.stateOf. simpl. congruence.
    + destruct r as [d|]; unfold React.stateOf; simpl; congruence.
Qed.

(** While the engine scores every completion with a Number, a completed
    interview has a Number as its final score. *)
Lemma interview_run_scored (now : Z) (evs : list InterviewPage.Event) :
  Forall InterviewPage.scoresCompletion evs ->
  InterviewPage.completed (React.ui (InterviewPage.run now evs)) = true ->
  Js.isNumber
    (InterviewPage.finalScore (React.ui (InterviewPage.run now evs))) = true.
Proof.
  intros Hevs. unfold InterviewPage.run.
  apply (@ReactFacts.fold_left_invariant_on _ _
           (fun w => InterviewPage.interviewInv now w /\
                     (InterviewPage.completed (React.ui w) = true ->
                      Js.isNumber
                        (InterviewPage.finalScore (React.ui w)) = true))
           InterviewPage.scoresCompletion InterviewPage.step); auto.
  - intros w e He [Inv Hsc]. split.
    + now apply InterviewFacts.interview_step_inv.
    + destruct (InterviewPage.completed (React.ui w)) eqn:Hc.
      * rewrite (interview_frozen e Inv Hc). rewrite Hc. auto.
      * intros Hc'.
        destruct (interview_step_completes w e Hc Hc')
          as (i & d & -> & Ht & Hfs).
        rewrite Hfs. now apply He.
  - split.
    + apply InterviewFacts.interview_mount_inv.
    + discriminate.
Qed.

(** The page renders whenever the final score it holds is a Number, and
    whenever the interview is not completed. *)
Lemma renders_numeric (st : InterviewPage.State) :
  (InterviewPage.completed st = true ->
   Js.isNumber (InterviewPage.finalScore st) = true) ->
  InterviewPage.renders st = true.
Proof.
  unfold InterviewPage.renders, InterviewPage.finalScore.
  destruct (InterviewPage.sessionStarted st); auto.
  destruct (InterviewPage.completed st); auto.
  destruct (InterviewPage.evaluation st); auto.
Qed.

(** The worked example of the specification: starting the interview
    for Ada yields an interview in progress whose transcript is the
    opening question. *)
Example interview_example_start :
  InterviewPage.phase
    (React.ui (InterviewPage.run 1700000000000 Samples.started)) =
  InterviewPage.InProgress /\
  InterviewPage.messages
    (React.ui (InterviewPage.run 1700000000000 Samples.started)) =
  [InterviewPage.mkMessage (Js.lit "assistant")
                           (Js.JStr (Js.lit "Tell me about yourself"))].
Proof. split; vm_compute; reflexivity. Qed.

(** Its continuation: the answer is sent, the closing response arrives,
    the interview is completed with final score 82 and the last turn is
    the terminal one. *)
Example interview_example_answer :
  InterviewPage.phase
    (React.ui (InterviewPage.run 1700000000000
       (Samples.started ++ Samples.answering ++
        [InterviewPage.Settle 0 (React.Fulfilled Samples.closing)]))) =
  InterviewPage.Completed /\
  InterviewPage.finalScore
    (React.ui (InterviewPage.run 1700000000000
       (Samples.started ++ Samples.answering ++
        [InterviewPage.Settle 0 (React.Fulfilled Samples.closing)]))) =
  Js.JNum 82 /\
  InterviewPage.isTerminal
    (React.ui (InterviewPage.run 1700000000000
       (Samples.started ++ Samples.answering ++
        [InterviewPage.Settle 0 (React.Fulfilled Samples.closing)]))) 2 =
  true /\
  React.ui (InterviewPage.run 1700000000000
       (Samples.started ++ Samples.answering ++
        [InterviewPage.Settle 0 (React.Fulfilled Samples.closing)])) =
  InterviewPage.mkState true (Js.lit "Ada") (Js.lit "Backend Engineer")
    (InterviewPage.messages Samples.finished) [] false true
    (InterviewPage.evaluation Samples.finished)
    (InterviewPage.sessionId Samples.finished).
Proof. repeat split; vm_compute; reflexivity. Qed.

(** While the answer is pending exactly one request is in flight. *)
Example interview_example_pending :
  React.inflight (InterviewPage.run 1700000000000
                    (Samples.started ++ Samples.answering)) =
  [InterviewPage.PostInterview
     (InterviewPage.sessionId_init 1700000000000) (Js.lit "Ada")
     (Js.lit "Backend Engineer")
     (Some (Js.lit "I have 5 years of experience"))].
Proof. vm_compute. reflexivity. Qed.

(** The chat: a question is sent and answered with an escalation. *)
Example chat_example_exchange :
  map ChatPage.role
      (ChatPage.messages
         (React.ui (ChatPage.run 1700000000000
            [ChatPage.ChangeInput (Js.lit "What is the leave policy?");
             ChatPage.PressEnter;
             ChatPage.Settle 1
               (React.Fulfilled
                  (ChatPage.mkData (Js.JStr (Js.lit "Ask HR"))
                                   (Js.JNum (3 # 10)) (Js.JBool true)
                                   None))]))) =
  [Js.lit "user"; Js.lit "assistant"].
Proof. vm_compute. reflexivity. Qed.

(** C3: the code breaks the claim.  When the response that ends the
    interview carries no [score], [handleSend] still raises [completed]
    and stores the evaluation with the score it was given: the interview
    is completed, its final score is undefined, and the render of the
    page throws, so nothing is drawn any more. *)
Theorem C3_completion_without_score_breaks_page :
  InterviewPage.phase
    (React.ui (InterviewPage.run 1700000000000
       (Samples.started ++ Samples.answering ++
        [InterviewPage.Settle 0 (React.Fulfilled Samples.closingUnscored)])))
  = InterviewPage.Completed /\
  InterviewPage.finalScore
    (React.ui (InterviewPage.run 1700000000000
       (Samples.started ++ Samples.answering ++
        [InterviewPage.Settle 0 (React.Fulfilled Samples.closingUnscored)])))
  = Js.JUndefined /\
  InterviewPage.renders
    (React.ui (InterviewPage.run 1700000000000
       (Samples.started ++ Samples.answering ++
        [InterviewPage.Settle 0 (React.Fulfilled Samples.closingUnscored)])))
  = false.
Proof. repeat split; vm_compute; reflexivity. Qed.

(** X24: after every sequence of events the evaluation is stored
    exactly when the interview is completed, and a numeric final score
    implies completion.  While every response that said [completed]
    carried a Number as its score, the page renders and a completed
    interview has a numeric final score.  The fulfilled answer whose
    response says [completed] appends the assistant turn as the last
    turn, stores the response's score, whatever it is, as the final
    score and completes the interview; the page then renders, and draws
    that last turn as the terminal one, exactly when that score is a
    Number.  From then on no event changes the page, so the final score
    never changes. *)
Theorem interview_final_score_with_completion
  (now : Z) (evs : list InterviewPage.Event) :
  let w := InterviewPage.run now evs in
  (InterviewPage.evaluation (React.ui w) <> None <->
   InterviewPage.phase (React.ui w) = InterviewPage.Completed) /\
  (Js.isNumber (InterviewPage.finalScore (React.ui w)) = true ->
   InterviewPage.phase (React.ui w) = InterviewPage.Completed) /\
  (Forall InterviewPage.scoresCompletion evs ->
   InterviewPage.renders (React.ui w) = true /\
   (InterviewPage.phase (React.ui w) = InterviewPage.Completed ->
    Js.isNumber (InterviewPage.finalScore (React.ui w)) = true)) /\
  (forall i d sid n p m,
      nth_error (React.inflight w) i =
        Some (InterviewPage.PostInterview sid n p (Some m)) ->
      Js.truthy (InterviewPage.data_completed d) = true ->
      let st' :=
        React.ui (InterviewPage.step w
                    (InterviewPage.Settle i (React.Fulfilled d))) in
      InterviewPage.phase st' = InterviewPage.Completed /\
      InterviewPage.finalScore st' = InterviewPage.data_score d /\
      InterviewPage.messages st' =
        InterviewPage.messages (React.ui w) ++ [InterviewPage.assistantTurn d]
      /\
      InterviewPage.renders st' = Js.isNumber (InterviewPage.data_score d) /\
      InterviewPage.isTerminal st'
        (List.length (InterviewPage.messages (React.ui w))) =
      Js.isNumber (InterviewPage.data_score d)) /\
  (InterviewPage.phase (React.ui w) = InterviewPage.Completed ->
   forall more, InterviewPage.run now (evs ++ more) = w).
Proof.
  intros w.
  pose proof (InterviewFacts.interview_run_inv now evs) as Inv. fold w in Inv.
  split; [|split; [|split; [|split]]].
  - rewrite phase_completed. apply (InterviewPage.inv_eval Inv).
  - intros Hd. rewrite phase_completed.
    apply (InterviewPage.inv_eval Inv).
    unfold InterviewPage.finalScore in Hd.
    destruct (InterviewPage.evaluation (React.ui w)); discriminate.
  - intros Hevs.
    assert (Hnum : InterviewPage.completed (React.ui w) = true ->
                   Js.isNumber (InterviewPage.finalScore (React.ui w)) = true)
      by now apply interview_run_scored.
    split.
    + now apply renders_numeric.
    + intros Hp. apply phase_completed in Hp. auto.
  - intros i d sid n p m Hi Ht st'. subst st'.
    pose proof (InterviewPage.inv_answer Inv _ _ _ _ (nth_error_In _ _ Hi))
      as Hss.
    unfold InterviewPage.step, React.settle. rewrite Hi.
    rewrite ReactFacts.ui_commit. simpl.
    rewrite InterviewFacts.interview_answer_fulfilled, Ht.
    unfold React.stateOf. simpl.
    split; [reflexivity|]. split; [reflexivity|]. split; [reflexivity|].
    unfold InterviewPage.isTerminal, InterviewPage.renders. simpl.
    rewrite Hss. split; [reflexivity|].
    rewrite nth_error_app2, Nat.sub_diag by auto. simpl.
    rewrite length_app. simpl.
    replace (List.length (InterviewPage.messages (React.ui w)) + 1 - 1)%nat
      with (List.length (InterviewPage.messages (React.ui w))) by lia.
    rewrite Nat.eqb_refl. apply andb_true_r.
  - intros Hp more. apply phase_completed in Hp.
    unfold InterviewPage.run. rewrite fold_left_app.
    now apply (interview_frozen_run more Inv).
Qed.

Lemma interview_final_score_with_completion_witness :
  Js.isNumber
    (InterviewPage.finalScore
       (React.ui (InterviewPage.run 1700000000000
          (Samples.started ++ Samples.answering ++
           [InterviewPage.Settle 0 (React.Fulfilled Samples.closing)]))))
  = true.
Proof.
  destruct (interview_final_score_with_completion 1700000000000
              (Samples.started ++ Samples.answering ++
               [InterviewPage.Settle 0 (React.Fulfilled Samples.closing)]))
    as (_ & _ & Hscored & _).
  apply Hscored.
  - repeat constructor; simpl; auto.
  - vm_compute. reflexivity.
Defined.

(** C4: after every sequence of events, once the interview has left
    [NotStarted] a further start is rejected as a no-op.  The page no
    longer shows the start form, the only place [startInterview] is
    called from, so the start control reaches no handler: the page is
    unchanged, no request is issued and no turn is appended. *)
Theorem C4_start_not_offered_after_start
  (now : Z) (evs : list InterviewPage.Event) :
  let w := InterviewPage.run now evs in
  InterviewPage.phase (React.ui w) <> InterviewPage.NotStarted ->
  InterviewPage.startFormShown (React.ui w) = false /\
  InterviewPage.step w InterviewPage.ClickStart = w.
Proof.
  intros w Hp.
  pose proof (InterviewFacts.interview_run_inv now evs) as Inv. fold w in Inv.
  pose proof (interview_started_after_start Inv Hp) as Hss.
  simpl. unfold InterviewPage.startEnabled, InterviewPage.startFormShown.
  rewrite Hss. auto.
Qed.

Lemma C4_start_not_offered_after_start_witness :
  InterviewPage.step (InterviewPage.run 1700000000000 Samples.started)
                     InterviewPage.ClickStart =
  InterviewPage.run 1700000000000 Samples.started.
Proof.
  apply (C4_start_not_offered_after_start 1700000000000 Samples.started).
  vm_compute. discriminate.
Defined.

(* ================================================================== *)
(** * Failed engine calls *)
(* ================================================================== *)


(* ================================================================== *)
(** * More about the chat page *)
(* ================================================================== *)

(** Every step of the chat page is one of its moves. *)
Lemma chat_step_move (w : ChatPage.W) (e : ChatPage.Event) :
  ChatPage.Move w (ChatPage.step w e).
Proof.
  destruct e as [v| | |i r]; simpl.
  - unfold ChatPage.inputEnabled.
    destruct (ChatPage.loading (React.ui w)) eqn:Hl; simpl;
      [apply ChatPage.Idle|].
    unfold React.commit. simpl. rewrite !app_nil_r.
    now apply ChatPage.InputEdited.
  - unfold ChatPage.inputEnabled.
    destruct (ChatPage.loading (React.ui w)) eqn:Hl; simpl;
      [apply ChatPage.Idle|].
    destruct (Js.truthyStr (Js.trim (ChatPage.input (React.ui w)))) eqn:Ht.
    + unfold React.commit.
      rewrite ChatFacts.chat_handleSend_accepted by now rewrite Ht, Hl.
      now apply ChatPage.SendIssued.
    + rewrite ReactFacts.commit_idle; [apply ChatPage.Idle|].
      apply ChatFacts.chat_handleSend_guarded. now rewrite Ht.
  - unfold ChatPage.sendEnabled.
    destruct (ChatPage.loading (React.ui w)) eqn:Hl; simpl;
      [apply ChatPage.Idle|].
    destruct (Js.truthyStr (Js.trim (ChatPage.input (React.ui w)))) eqn:Ht;
      simpl; [|apply ChatPage.Idle].
    unfold React.commit.
    rewrite ChatFacts.chat_handleSend_accepted by now rewrite Ht, Hl.
    now apply ChatPage.SendIssued.
  - unfold React.settle.
    destruct (nth_error (React.inflight w) i) as [c|] eqn:Ei;
      [|apply ChatPage.Idle].
    destruct c as [sid|sid m]; simpl.
    + destruct r as [d|]; simpl.
      * destruct (ChatPage.data_messages d) as [ms|];
          unfold React.commit; simpl; rewrite !app_nil_r.
        -- now apply ChatPage.HistoryLoaded with (sid := sid).
        -- destruct w as [st infl nots]. simpl in *.
           now apply (@ChatPage.HistoryKept (React.mkWorld st infl nots)
                        i sid).
      * unfold React.commit. simpl. rewrite app_nil_r.
        destruct w as [st infl nots]. simpl in *.
        now apply (@ChatPage.HistoryFailed (React.mkWorld st infl nots)
                     i sid).
    + destruct r as [d|].
      * unfold React.commit. rewrite ChatFacts.chat_resume_fulfilled. simpl.
        pose proof (@ChatPage.ExchangeFulfilled w i sid m d Ei) as M.
        destruct (Js.truthy (ChatPage.data_escalated d)); simpl;
          rewrite ?app_nil_r in M; rewrite ?app_nil_r; exact M.
      * unfold React.commit. rewrite ChatFacts.chat_resume_rejected. simpl.
        rewrite app_nil_r.
        now apply ChatPage.ExchangeRejected with (sid := sid) (m := m).
Qed.

Lemma existsb_removeNth {A} (p : A -> bool) (l : list A) (i : nat) :
  existsb p l = false -> existsb p (React.removeNth i l) = false.
Proof.
  revert i. induction l as [|x l IH]; intros [|i]; simpl; auto;
    intros E; apply orb_false_elim in E as [Ex El]; auto.
  rewrite Ex. simpl. auto.
Qed.

Lemma existsb_nth_error {A} (p : A -> bool) (l : list A) (i : nat) (x : A) :
  nth_error l i = Some x -> p x = true -> existsb p l = true.
Proof.
  intros Hi Hp. apply existsb_exists. exists x. split; auto.
  now apply nth_error_In with i.
Qed.

Lemma extends_refl {A} (l : list A) : Transcript.extends l l.
Proof. exists []. now rewrite app_nil_r. Qed.

Lemma extends_app {A} (l more : list A) : Transcript.extends (l ++ more) l.
Proof. now exists more. Qed.

Lemma extends_trans {A} (a b c : list A) :
  Transcript.extends a b -> Transcript.extends b c -> Transcript.extends a c.
Proof.
  intros [m1 ->] [m2 ->]. exists (m2 ++ m1). now rewrite app_assoc.
Qed.

Lemma extends_length {A} (a b : list A) :
  Transcript.extends a b -> (List.length b <= List.length a)%nat.
Proof. intros [m ->]. rewrite length_app. lia. Qed.

(** Once the history has settled, a move neither brings it back nor
    touches the turns already in the transcript. *)
Lemma chat_move_after_hydration (w w' : ChatPage.W) :
  ChatPage.Move w w' ->
  ChatPage.historyPending w = false ->
  ChatPage.historyPending w' = false /\
  Transcript.extends (ChatPage.messages (React.ui w'))
                     (ChatPage.messages (React.ui w)).
Proof.
  unfold ChatPage.historyPending.
  intros M Hp; destruct M; simpl;
    try (rewrite (existsb_nth_error ChatPage.isHistory _ _ H eq_refl) in Hp;
         discriminate);
    rewrite ?existsb_app; simpl;
    rewrite ?(existsb_removeNth _ _ _ Hp), ?Hp;
    split; auto using extends_refl, extends_app.
Qed.

Lemma chat_run_after_hydration (w : ChatPage.W) (more : list ChatPage.Event) :
  ChatPage.historyPending w = false ->
  ChatPage.historyPending (fold_left ChatPage.step more w) = false /\
  Transcript.extends
    (ChatPage.messages (React.ui (fold_left ChatPage.step more w)))
    (ChatPage.messages (React.ui w)).
Proof.
  revert w. induction more as [|e more IH]; intros w Hp; simpl.
  - split; auto using extends_refl.
  - destruct (chat_move_after_hydration (chat_step_move w e) Hp) as [Hp' Hx].
    destruct (IH _ Hp') as [Hp'' Hx'].
    split; auto. eapply extends_trans; eauto.
Qed.

(** X1: once the history request of the mount effect has settled, the
    chat transcript is append-only: whatever events follow, the turns it
    holds stay where they are and new turns are only added at the end. *)
Theorem chat_transcript_append_only
  (now : Z) (evs more : list ChatPage.Event) :
  ChatPage.historyPending (ChatPage.run now evs) = false ->
  Transcript.extends
    (ChatPage.messages (React.ui (ChatPage.run now (evs ++ more))))
    (ChatPage.messages (React.ui (ChatPage.run now evs))) /\
  ChatPage.historyPending (ChatPage.run now (evs ++ more)) = false.
Proof.
  intros Hp. unfold ChatPage.run in *. rewrite fold_left_app.
  destruct (@chat_run_after_hydration _ more Hp). now split.
Qed.

Lemma chat_transcript_append_only_witness :
  Transcript.extends
    (ChatPage.messages
       (React.ui (ChatPage.run 1700000000000
          ([ChatPage.Settle 0 (React.Fulfilled
              (ChatPage.mkData Js.JUndefined Js.JUndefined Js.JUndefined
                               None))]
           ++ [ChatPage.ChangeInput (Js.lit "hello"); ChatPage.PressEnter]))))
    (ChatPage.messages
       (React.ui (ChatPage.run 1700000000000
          [ChatPage.Settle 0 (React.Fulfilled
              (ChatPage.mkData Js.JUndefined Js.JUndefined Js.JUndefined
                               None))]))).
Proof.
  apply (chat_transcript_append_only 1700000000000
           [ChatPage.Settle 0 (React.Fulfilled
              (ChatPage.mkData Js.JUndefined Js.JUndefined Js.JUndefined
                               None))]
           [ChatPage.ChangeInput (Js.lit "hello"); ChatPage.PressEnter]).
  reflexivity.
Defined.

(** Take membership in a list of effects with a known tail apart. *)
Ltac in_notices :=
  repeat match goal with
  | H : In _ (_ ++ _) |- _ => apply in_app_or in H; destruct H as [H|H]
  | H : In _ (if ?b then _ else _) |- _ => destruct b
  | H : In _ (_ :: _) |- _ => destruct H as [H|H]
  | H : In _ [] |- _ => destruct H
  | H : _ \/ _ |- _ => destruct H as [H|H]
  | H : False |- _ => destruct H
  | H : React.Request _ = React.Request _ |- _ => inversion H; subst; clear H
  | H : React.Toast _ _ = React.Request _ |- _ => discriminate H
  | H : React.ConsoleError _ = React.Request _ |- _ => discriminate H
  end.

Lemma truthyStr_true (s : Js.jsstring) : Js.truthyStr s = true -> s <> [].
Proof. destruct s; simpl; congruence. Qed.

Lemma chat_move_well_formed (now : Z) (w w' : ChatPage.W) :
  ChatPage.Move w w' ->
  ChatPage.sessionId (React.ui w) = ChatPage.sessionId_init now ->
  ChatPage.chatRequestsWellFormed now w ->
  ChatPage.chatRequestsWellFormed now w'.
Proof.
  intros M Hsid (Hh & Hc & Hn).
  destruct M; unfold ChatPage.chatRequestsWellFormed; simpl;
    try (split; [|split]; now auto);
    (split; [|split]);
    try (intros; in_notices; eauto using truthyStr_true; fail);
    rewrite ReactFacts.requestsOf_app, filter_app, length_app, Hn;
    try destruct (Js.truthy (ChatPage.data_escalated d)); reflexivity.
Qed.

(** X2: after every sequence of events, every request the chat page has
    sent carries the session id made at mount, no chat message sent to
    the engine is blank, and the history was requested exactly once. *)
Theorem chat_requests_well_formed (now : Z) (evs : list ChatPage.Event) :
  ChatPage.chatRequestsWellFormed now (ChatPage.run now evs).
Proof.
  unfold ChatPage.run.
  apply (@ReactFacts.fold_left_invariant _ _
           (fun w => ChatPage.chatInv now w /\
                     ChatPage.chatRequestsWellFormed now w)).
  - intros w e [Inv Hwf]. split.
    + now apply ChatFacts.chat_step_inv.
    + apply (chat_move_well_formed (chat_step_move w e)); auto.
      apply Inv.
  - split; [apply ChatFacts.chat_mount_inv|].
    unfold ChatPage.chatRequestsWellFormed, ChatPage.mount, React.commit.
    simpl. repeat split; intros; in_notices; auto; discriminate.
Qed.

(** What the page is after a send that the guard lets through. *)
Lemma chat_send_accepted (w : ChatPage.W) :
  ChatPage.loading (React.ui w) = false ->
  Js.truthyStr (Js.trim (ChatPage.input (React.ui w))) = true ->
  ChatPage.step w ChatPage.PressEnter =
  React.mkWorld
    (ChatPage.mkState
       (ChatPage.messages (React.ui w)
        ++ [ChatPage.userTurn (ChatPage.input (React.ui w))])
       [] true (ChatPage.sessionId (React.ui w)))
    (React.inflight w
     ++ [ChatPage.PostChat (ChatPage.sessionId (React.ui w))
                           (ChatPage.input (React.ui w))])
    (React.notices w
     ++ [React.Request
           (ChatPage.PostChat (ChatPage.sessionId (React.ui w))
                              (ChatPage.input (React.ui w)))]).
Proof.
  intros Hl Ht. simpl. unfold ChatPage.inputEnabled. rewrite Hl. simpl.
  unfold React.commit.
  rewrite ChatFacts.chat_handleSend_accepted by now rewrite Ht, Hl.
  reflexivity.
Qed.

(** While nothing but exchanges can be in flight, an idle page has
    nothing in flight. *)
Lemma chat_idle_flight (now : Z) (evs : list ChatPage.Event) :
  ChatPage.historyPending (ChatPage.run now evs) = false ->
  ChatPage.loading (React.ui (ChatPage.run now evs)) = false ->
  React.inflight (ChatPage.run now evs) = [].
Proof.
  intros Hp Hl.
  destruct (ChatFacts.chat_run_inv now evs) as [_ Hone].
  rewrite Hl in Hone. unfold ChatPage.exchangesInFlight in Hone.
  apply length_zero_iff_nil in Hone.
  unfold ChatPage.historyPending in Hp.
  destruct (React.inflight (ChatPage.run now evs)) as [|c l]; auto.
  simpl in *. unfold ChatPage.isHistory in Hp.
  destruct (ChatPage.isExchange c); simpl in *; discriminate.
Qed.

(** X3: on every trace, the reply to a chat exchange is appended to the
    transcript as it is when the reply arrives, as an assistant turn
    carrying the engine's response, confidence and escalation flag, and
    the escalation warning is raised exactly when that flag is truthy.
    When the message is sent after the history request has settled, the
    exchange as a whole appends exactly two turns, the user's message
    and then the reply: the send puts one request in flight, clears the
    input field and raises [loading]; until the reply arrives no other
    event changes the page; the reply lowers [loading] and leaves
    nothing in flight. *)
Theorem chat_exchange_appends_two_turns
  (now : Z) (evs : list ChatPage.Event) (d : ChatPage.Data) :
  let w := ChatPage.run now evs in
  (forall i sid m,
      nth_error (React.inflight w) i = Some (ChatPage.PostChat sid m) ->
      let w' := ChatPage.step w (ChatPage.Settle i (React.Fulfilled d)) in
      ChatPage.messages (React.ui w') =
        ChatPage.messages (React.ui w)
        ++ [ChatPage.mkMessage (Js.lit "assistant")
              (ChatPage.data_response d) (ChatPage.data_confidence d)
              (ChatPage.data_escalated d)] /\
      React.notices w' =
        React.notices w
        ++ (if Js.truthy (ChatPage.data_escalated d)
            then [React.Toast React.TWarning
                    "This query has been escalated to HR team"]
            else [])) /\
  (ChatPage.historyPending w = false ->
   ChatPage.loading (React.ui w) = false ->
   Js.truthyStr (Js.trim (ChatPage.input (React.ui w))) = true ->
   let w1 := ChatPage.step w ChatPage.PressEnter in
   let w2 := ChatPage.step w1 (ChatPage.Settle 0 (React.Fulfilled d)) in
   React.inflight w1 =
     [ChatPage.PostChat (ChatPage.sessionId_init now)
                        (ChatPage.input (React.ui w))] /\
   (forall e, (forall r, e <> ChatPage.Settle 0 r) ->
              ChatPage.step w1 e = w1) /\
   React.ui w2 =
     ChatPage.mkState
       (ChatPage.messages (React.ui w)
        ++ [ChatPage.mkMessage (Js.lit "user")
              (Js.JStr (ChatPage.input (React.ui w)))
              Js.JUndefined Js.JUndefined;
            ChatPage.mkMessage (Js.lit "assistant")
              (ChatPage.data_response d) (ChatPage.data_confidence d)
              (ChatPage.data_escalated d)])
       [] false (ChatPage.sessionId_init now) /\
   React.inflight w2 = []).
Proof.
  cbv zeta. split.
  - intros i sid m Hi.
    unfold ChatPage.step, React.settle. rewrite Hi.
    rewrite ReactFacts.ui_commit, ReactFacts.notices_commit. simpl.
    rewrite ChatFacts.chat_resume_fulfilled. split; reflexivity.
  - intros Hp Hl Ht.
    destruct (ChatFacts.chat_run_inv now evs) as [Hsid _].
    pose proof (chat_idle_flight now evs Hp Hl) as Hnil.
    rewrite (chat_send_accepted _ Hl Ht), Hnil, Hsid. simpl.
    split; [reflexivity|]. split.
    + intros e He. destruct e as [v| | |i r]; simpl; auto.
      destruct i as [|i]; [now elim (He r)|].
      unfold React.settle. simpl. now destruct i.
    + unfold React.settle. simpl. unfold React.commit.
      rewrite ChatFacts.chat_resume_fulfilled. simpl.
      rewrite <- app_assoc. simpl.
      split; [reflexivity|].
      now destruct (Js.truthy (ChatPage.data_escalated d)).
Qed.

Lemma chat_exchange_appends_two_turns_witness :
  List.length
    (ChatPage.messages
       (React.ui
          (ChatPage.step
             (ChatPage.step
                (ChatPage.run 1700000000000
                   [ChatPage.Settle 0 React.Rejected;
                    ChatPage.ChangeInput (Js.lit "hello")])
                ChatPage.PressEnter)
             (ChatPage.Settle 0
                (React.Fulfilled
                   (ChatPage.mkData (Js.JStr (Js.lit "Ask HR"))
                      (Js.JNum (3 # 10)) (Js.JBool true) None)))))) = 2%nat.
Proof.
  destruct (chat_exchange_appends_two_turns 1700000000000
              [ChatPage.Settle 0 React.Rejected;
               ChatPage.ChangeInput (Js.lit "hello")]
              (ChatPage.mkData (Js.JStr (Js.lit "Ask HR"))
                 (Js.JNum (3 # 10)) (Js.JBool true) None))
    as [_ Hsent].
  specialize (Hsent eq_refl eq_refl eq_refl).
  destruct Hsent as (_ & _ & Hui & _).
  rewrite Hui. reflexivity.
Defined.

(* ================================================================== *)
(** * More about the interview page *)
(* ================================================================== *)

Lemma interview_commit_handleSend_move (w : InterviewPage.W) :
  InterviewPage.sessionStarted (React.ui w) = true ->
  InterviewPage.completed (React.ui w) = false ->
  InterviewPage.loading (React.ui w) = false ->
  InterviewPage.Move w (React.commit w InterviewPage.handleSend).
Proof.
  intros Hss Hc Hl.
  destruct (Js.truthyStr (Js.trim (InterviewPage.input (React.ui w))))
    eqn:Ht.
  - unfold React.commit.
    rewrite InterviewFacts.interview_handleSend_accepted
      by now rewrite Ht, Hl, Hc.
    now apply InterviewPage.AnswerIssued.
  - rewrite ReactFacts.commit_idle; [apply InterviewPage.Idle|].
    apply InterviewFacts.interview_handleSend_guarded. now rewrite Ht.
Qed.

(** Every step of the interview page is one of its moves. *)
Lemma interview_step_move (w : InterviewPage.W) (e : InterviewPage.Event) :
  InterviewPage.Move w (InterviewPage.step w e).
Proof.
  destruct e as [v|v| |v| | |i r]; simpl;
    unfold InterviewPage.startEnabled, InterviewPage.inputEnabled,
      InterviewPage.sendEnabled, InterviewPage.answerBarShown,
      InterviewPage.startFormShown.
  - destruct (InterviewPage.sessionStarted (React.ui w)) eqn:Hss; simpl;
      [apply InterviewPage.Idle|].
    unfold React.commit. simpl. rewrite !app_nil_r.
    now apply InterviewPage.NameEdited.
  - destruct (InterviewPage.sessionStarted (React.ui w)) eqn:Hss; simpl;
      [apply InterviewPage.Idle|].
    unfold React.commit. simpl. rewrite !app_nil_r.
    now apply InterviewPage.PositionEdited.
  - destruct (InterviewPage.sessionStarted (React.ui w)) eqn:Hss; simpl;
      [apply InterviewPage.Idle|].
    destruct (InterviewPage.loading (React.ui w)) eqn:Hl; simpl;
      [apply InterviewPage.Idle|].
    unfold React.commit.
    destruct (InterviewPage.namesGiven (React.ui w)) eqn:Hn.
    + rewrite InterviewFacts.interview_start_accepted by exact Hn. simpl.
      now apply InterviewPage.StartIssued.
    + rewrite InterviewFacts.interview_start_blank by exact Hn. simpl.
      rewrite app_nil_r.
      destruct w as [st infl nots]. simpl in *.
      now apply (@InterviewPage.StartRefused (React.mkWorld st infl nots)).
  - destruct (InterviewPage.sessionStarted (React.ui w)) eqn:Hss; simpl;
      [|apply InterviewPage.Idle].
    destruct (InterviewPage.completed (React.ui w)) eqn:Hc; simpl;
      [apply InterviewPage.Idle|].
    destruct (InterviewPage.loading (React.ui w)) eqn:Hl; simpl;
      [apply InterviewPage.Idle|].
    unfold React.commit. simpl. rewrite !app_nil_r.
    now apply InterviewPage.InputEdited.
  - destruct (InterviewPage.sessionStarted (React.ui w)) eqn:Hss; simpl;
      [|apply InterviewPage.Idle].
    destruct (InterviewPage.completed (React.ui w)) eqn:Hc; simpl;
      [apply InterviewPage.Idle|].
    destruct (InterviewPage.loading (React.ui w)) eqn:Hl; simpl;
      [apply InterviewPage.Idle|].
    now apply interview_commit_handleSend_move.
  - destruct (InterviewPage.sessionStarted (React.ui w)) eqn:Hss; simpl;
      [|apply InterviewPage.Idle].
    destruct (InterviewPage.completed (React.ui w)) eqn:Hc; simpl;
      [apply InterviewPage.Idle|].
    destruct (InterviewPage.loading (React.ui w)) eqn:Hl; simpl;
      [apply InterviewPage.Idle|].
    destruct (Js.truthyStr (Js.trim (InterviewPage.input (React.ui w))));
      simpl; [|apply InterviewPage.Idle].
    now apply interview_commit_handleSend_move.
  - unfold React.settle.
    destruct (nth_error (React.inflight w) i) as [c|] eqn:Ei;
      [|apply InterviewPage.Idle].
    destruct c as [sid n p [m|]]; simpl.
    + destruct r as [d|].
      * unfold React.commit.
        rewrite InterviewFacts.interview_answer_fulfilled.
        destruct (Js.truthy (InterviewPage.data_completed d)) eqn:Ht; simpl;
          rewrite ?app_nil_r.
        -- now apply InterviewPage.AnswerCompleted
             with (sid := sid) (n := n) (p := p) (m := m).
        -- now apply InterviewPage.AnswerFulfilled
             with (sid := sid) (n := n) (p := p) (m := m).
      * unfold React.commit.
        rewrite InterviewFacts.interview_answer_rejected. simpl.
        rewrite app_nil_r.
        now apply InterviewPage.AnswerRejected
          with (sid := sid) (n := n) (p := p) (m := m).
    + destruct r as [d|].
      * unfold React.commit.
        rewrite InterviewFacts.interview_start_fulfilled. simpl.
        rewrite !app_nil_r.
        now apply InterviewPage.StartFulfilled
          with (sid := sid) (n := n) (p := p).
      * unfold React.commit.
        rewrite InterviewFacts.interview_start_rejected. simpl.
        rewrite app_nil_r.
        now apply InterviewPage.StartRejected
          with (sid := sid) (n := n) (p := p).
Qed.

Lemma interview_idle_flight (now : Z) (w : InterviewPage.W) :
  InterviewPage.interviewInv now w ->
  InterviewPage.loading (React.ui w) = false ->
  React.inflight w = [].
Proof.
  intros Inv Hl. pose proof (InterviewPage.inv_one Inv) as Hone.
  rewrite Hl in Hone. now apply length_zero_iff_nil.
Qed.

Lemma interview_settled_flight (now : Z) (w : InterviewPage.W) (i : nat)
  (c : InterviewPage.Call) :
  InterviewPage.interviewInv now w ->
  nth_error (React.inflight w) i = Some c ->
  React.removeNth i (React.inflight w) = [] /\
  In c (React.inflight w) /\
  InterviewPage.loading (React.ui w) = true.
Proof.
  intros Inv Hi. pose proof (InterviewPage.inv_one Inv) as Hone.
  rewrite (ReactFacts.length_removeNth _ _ Hi) in Hone.
  destruct (InterviewPage.loading (React.ui w)); [|discriminate].
  injection Hone as Hone. apply length_zero_iff_nil in Hone.
  repeat split; auto. now apply nth_error_In with i.
Qed.

Lemma namesGiven_true (st : InterviewPage.State) :
  InterviewPage.namesGiven st = true ->
  Js.trim (InterviewPage.candidateName st) <> [] /\
  Js.trim (InterviewPage.position st) <> [].
Proof.
  unfold InterviewPage.namesGiven. intros E.
  apply andb_prop in E as [E1 E2]. split; now apply truthyStr_true.
Qed.

(** Close one field of the shape invariant after a move. *)
Ltac shape_done :=
  intros; in_notices;
  repeat match goal with
  | H : InterviewPage.PostInterview _ _ _ _ =
        InterviewPage.PostInterview _ _ _ _ |- _ =>
      inversion H; subst; clear H
  | H : ?a = true, H' : ?a = false |- _ => congruence
  | H : exists _, _ |- _ => destruct H
  | H : _ /\ _ |- _ => destruct H
  end;
  try congruence;
  try solve [eauto using truthyStr_true];
  try solve [repeat split; eauto using truthyStr_true];
  try solve [eexists; reflexivity];
  try solve [eexists; eexists; reflexivity].

Lemma interview_move_shape (now : Z) (w w' : InterviewPage.W) :
  InterviewPage.Move w w' ->
  InterviewPage.interviewInv now w ->
  InterviewPage.interviewShape now w ->
  InterviewPage.interviewShape now w'.
Proof.
  intros M Inv Sh.
  pose proof (InterviewPage.inv_sid Inv) as Hsid.
  pose proof (InterviewPage.inv_done Inv) as Hdone.
  pose proof (InterviewPage.inv_answer Inv) as Hans.
  destruct Sh as [Hfresh Hopen Hstart Hanswer Hclose Hstarts Hanswers].
  destruct M;
    try match goal with
        | Hl : InterviewPage.loading (React.ui w) = false |- _ =>
            pose proof (interview_idle_flight Inv Hl) as Hnil
        end;
    try match goal with
        | Hi : nth_error (React.inflight w) _ = Some _ |- _ =>
            destruct (interview_settled_flight _ Inv Hi) as (Hnil & Hin & Hld)
        end;
    try match goal with
        | Hn : InterviewPage.namesGiven _ = true |- _ =>
            destruct (namesGiven_true _ Hn) as [Hcn Hpos]
        end;
    try match goal with
        | Hi : In (InterviewPage.PostInterview _ _ _ (Some _)) _ |- _ =>
            pose proof (Hans _ _ _ _ Hi) as Hyes
        end;
    try match goal with
        | Hi : In (InterviewPage.PostInterview _ _ _ None) _ |- _ =>
            pose proof (Hstart _ _ _ Hi) as Hno
        end;
    constructor; simpl; rewrite ?Hnil; simpl; auto.
  all: try solve [shape_done].
  (* no answer was sent before the start *)
  all: try solve [intros sid' n' p' m' Hin'; exfalso;
                  eapply (proj2 (Hfresh ltac:(assumption))); eauto].
  all: try solve [intros Hf; split; [now apply Hfresh|];
                  intros sid' n' p' m' Hin'; in_notices;
                  eapply (proj2 (Hfresh Hf)); eauto].
  (* the opening turn stays in front *)
  all: try solve [intros Hs; destruct (Hopen Hs) as (d0 & rest & E);
                  rewrite E; simpl; eexists; eexists; reflexivity].
  all: try solve [intros; exists []; eexists; reflexivity].
Qed.

Lemma interview_run_shape (now : Z) (evs : list InterviewPage.Event) :
  InterviewPage.interviewInv now (InterviewPage.run now evs) /\
  InterviewPage.interviewShape now (InterviewPage.run now evs).
Proof.
  unfold InterviewPage.run.
  apply (@ReactFacts.fold_left_invariant _ _
           (fun w => InterviewPage.interviewInv now w /\
                     InterviewPage.interviewShape now w)).
  - intros w e [Inv Sh]. split.
    + now apply InterviewFacts.interview_step_inv.
    + now apply (interview_move_shape (interview_step_move w e)).
  - split; [apply InterviewFacts.interview_mount_inv|].
    constructor; simpl; auto; try discriminate; intros; in_notices.
Qed.


(** X4: after every sequence of events the interview transcript is empty
    exactly while the interview has not started; once it has started
    the transcript opens with a turn of the assistant. *)
Theorem interview_transcript_opens_with_assistant
  (now : Z) (evs : list InterviewPage.Event) :
  let st := React.ui (InterviewPage.run now evs) in
  (InterviewPage.messages st = [] <->
   InterviewPage.sessionStarted st = false) /\
  (InterviewPage.sessionStarted st = true ->
   exists d rest,
     InterviewPage.messages st =
     InterviewPage.mkMessage (Js.lit "assistant")
                             (InterviewPage.data_response d) :: rest).
Proof.
  cbv zeta. destruct (interview_run_shape now evs) as [_ Sh].
  split.
  - split.
    + intros E.
      destruct (InterviewPage.sessionStarted
                  (React.ui (InterviewPage.run now evs))) eqn:Hss; auto.
      destruct (InterviewPage.shape_opening Sh Hss) as (d & rest & E').
      rewrite E' in E. discriminate.
    + intros Hss. now apply (InterviewPage.shape_fresh Sh).
  - apply (InterviewPage.shape_opening Sh).
Qed.

Lemma interview_transcript_opens_with_assistant_witness :
  exists d rest,
    InterviewPage.messages
      (React.ui (InterviewPage.run 1700000000000 Samples.started)) =
    InterviewPage.mkMessage (Js.lit "assistant")
                            (InterviewPage.data_response d) :: rest.
Proof.
  apply (interview_transcript_opens_with_assistant
           1700000000000 Samples.started).
  reflexivity.
Defined.

(** X5: after every sequence of events, every start request the page
    has sent carried the session id made at mount and a candidate name
    and a position that hold more than white space; every answer sent
    carried that id, the name and position the page holds, and a message
    that is not blank; and no answer is sent before the interview has
    started. *)
Theorem interview_requests_well_formed
  (now : Z) (evs : list InterviewPage.Event) :
  let w := InterviewPage.run now evs in
  (forall sid n p,
      In (React.Request (InterviewPage.PostInterview sid n p None))
         (React.notices w) ->
      sid = InterviewPage.sessionId_init now /\
      Js.trim n <> [] /\ Js.trim p <> []) /\
  (forall sid n p m,
      In (React.Request (InterviewPage.PostInterview sid n p (Some m)))
         (React.notices w) ->
      sid = InterviewPage.sessionId_init now /\
      n = InterviewPage.candidateName (React.ui w) /\
      p = InterviewPage.position (React.ui w) /\
      Js.trim m <> [] /\
      InterviewPage.sessionStarted (React.ui w) = true).
Proof.
  cbv zeta. destruct (interview_run_shape now evs) as [_ Sh].
  split.
  - apply (InterviewPage.shape_starts Sh).
  - intros sid n p m Hin.
    destruct (InterviewPage.shape_answers Sh _ _ _ _ Hin)
      as (E1 & E2 & E3 & E4).
    repeat split; auto.
    destruct (InterviewPage.sessionStarted
                (React.ui (InterviewPage.run now evs))) eqn:Hss; auto.
    destruct (InterviewPage.shape_fresh Sh Hss) as [_ Hno].
    now elim (Hno sid n p m).
Qed.

(** X6: while an answer is in flight it is the only request in flight
    and the message it carries is the last turn of the transcript, a
    turn of the user. *)
Theorem interview_pending_answer_is_last_turn
  (now : Z) (evs : list InterviewPage.Event) (sid n p m : Js.jsstring) :
  In (InterviewPage.PostInterview sid n p (Some m))
     (React.inflight (InterviewPage.run now evs)) ->
  React.inflight (InterviewPage.run now evs) =
    [InterviewPage.PostInterview sid n p (Some m)] /\
  exists before,
    InterviewPage.messages (React.ui (InterviewPage.run now evs)) =
    before ++ [InterviewPage.mkMessage (Js.lit "user") (Js.JStr m)].
Proof.
  intros Hin. destruct (interview_run_shape now evs) as [Inv Sh].
  split.
  - pose proof (InterviewPage.inv_one Inv) as Hone.
    destruct (React.inflight (InterviewPage.run now evs)) as [|c [|c' l]];
      simpl in *.
    + destruct Hin.
    + destruct Hin as [->|[]]. reflexivity.
    + destruct (InterviewPage.loading _); discriminate.
  - apply (InterviewPage.shape_answer Sh _ _ _ _ Hin).
Qed.

Lemma interview_pending_answer_is_last_turn_witness :
  exists before,
    InterviewPage.messages
      (React.ui (InterviewPage.run 1700000000000
                   (Samples.started ++ Samples.answering))) =
    before ++ [InterviewPage.mkMessage (Js.lit "user")
                 (Js.JStr (Js.lit "I have 5 years of experience"))].
Proof.
  apply (interview_pending_answer_is_last_turn 1700000000000
           (Samples.started ++ Samples.answering)
           (InterviewPage.sessionId_init 1700000000000) (Js.lit "Ada")
           (Js.lit "Backend Engineer")
           (Js.lit "I have 5 years of experience")).
  vm_compute. left. reflexivity.
Defined.

(** Once the interview has started, a move keeps it started, keeps the
    candidate's details and only appends to the transcript. *)
Lemma interview_move_started (now : Z) (w w' : InterviewPage.W) :
  InterviewPage.Move w w' ->
  InterviewPage.interviewInv now w ->
  InterviewPage.interviewShape now w ->
  InterviewPage.sessionStarted (React.ui w) = true ->
  InterviewPage.sessionStarted (React.ui w') = true /\
  InterviewPage.candidateName (React.ui w') =
    InterviewPage.candidateName (React.ui w) /\
  InterviewPage.position (React.ui w') = InterviewPage.position (React.ui w) /\
  Transcript.extends (InterviewPage.messages (React.ui w'))
                     (InterviewPage.messages (React.ui w)).
Proof.
  intros M Inv Sh Hss.
  destruct M; simpl; try congruence;
    try match goal with
        | Hi : nth_error (React.inflight w) _ = Some _ |- _ =>
            pose proof (nth_error_In _ _ Hi) as Hin
        end;
    try (pose proof (InterviewPage.shape_start Sh _ _ _ Hin); congruence);
    repeat split; auto using extends_refl, extends_app.
Qed.

Lemma interview_run_started (now : Z) (w : InterviewPage.W)
  (more : list InterviewPage.Event) :
  InterviewPage.interviewInv now w ->
  InterviewPage.interviewShape now w ->
  InterviewPage.sessionStarted (React.ui w) = true ->
  InterviewPage.sessionStarted
    (React.ui (fold_left InterviewPage.step more w)) = true /\
  InterviewPage.candidateName
    (React.ui (fold_left InterviewPage.step more w)) =
    InterviewPage.candidateName (React.ui w) /\
  InterviewPage.position (React.ui (fold_left InterviewPage.step more w)) =
    InterviewPage.position (React.ui w) /\
  Transcript.extends
    (InterviewPage.messages (React.ui (fold_left InterviewPage.step more w)))
    (InterviewPage.messages (React.ui w)).
Proof.
  revert w. induction more as [|e more IH]; intros w Inv Sh Hss; simpl.
  - repeat split; auto using extends_refl.
  - pose proof (interview_step_move w e) as M.
    destruct (interview_move_started M Inv Sh Hss) as (H1 & H2 & H3 & H4).
    destruct (IH (InterviewPage.step w e)) as (K1 & K2 & K3 & K4); auto.
    + now apply InterviewFacts.interview_step_inv.
    + now apply (interview_move_shape M).
    + repeat split; try congruence. eapply extends_trans; eauto.
Qed.

(** X7: once the interview has started, the candidate name and the
    position the page holds never change again, whatever events follow,
    and the interview stays started. *)
Theorem interview_details_fixed_after_start
  (now : Z) (evs more : list InterviewPage.Event) :
  InterviewPage.sessionStarted (React.ui (InterviewPage.run now evs)) = true ->
  InterviewPage.sessionStarted
    (React.ui (InterviewPage.run now (evs ++ more))) = true /\
  InterviewPage.candidateName
    (React.ui (InterviewPage.run now (evs ++ more))) =
    InterviewPage.candidateName (React.ui (InterviewPage.run now evs)) /\
  InterviewPage.position (React.ui (InterviewPage.run now (evs ++ more))) =
    InterviewPage.position (React.ui (InterviewPage.run now evs)).
Proof.
  intros Hss. destruct (interview_run_shape now evs) as [Inv Sh].
  unfold InterviewPage.run in *. rewrite fold_left_app.
  destruct (interview_run_started more Inv Sh Hss) as (H1 & H2 & H3 & _).
  auto.
Qed.

Lemma interview_details_fixed_after_start_witness :
  InterviewPage.candidateName
    (React.ui (InterviewPage.run 1700000000000
                 (Samples.started ++ Samples.answering))) =
  InterviewPage.candidateName
    (React.ui (InterviewPage.run 1700000000000 Samples.started)).
Proof.
  apply (interview_details_fixed_after_start 1700000000000
           Samples.started Samples.answering).
  vm_compute. reflexivity.
Defined.

(** X8: once the interview has started its transcript is append-only:
    whatever events follow, the turns it holds stay where they are and
    new turns are only added at the end. *)
Theorem interview_transcript_append_only
  (now : Z) (evs more : list InterviewPage.Event) :
  InterviewPage.sessionStarted (React.ui (InterviewPage.run now evs)) = true ->
  Transcript.extends
    (InterviewPage.messages (React.ui (InterviewPage.run now (evs ++ more))))
    (InterviewPage.messages (React.ui (InterviewPage.run now evs))).
Proof.
  intros Hss. destruct (interview_run_shape now evs) as [Inv Sh].
  unfold InterviewPage.run in *. rewrite fold_left_app.
  now destruct (interview_run_started more Inv Sh Hss) as (_ & _ & _ & H4).
Qed.

Lemma interview_transcript_append_only_witness :
  Transcript.extends
    (InterviewPage.messages
       (React.ui (InterviewPage.run 1700000000000
                    (Samples.started ++ Samples.answering))))
    (InterviewPage.messages
       (React.ui (InterviewPage.run 1700000000000 Samples.started))).
Proof.
  apply (interview_transcript_append_only 1700000000000
           Samples.started Samples.answering).
  vm_compute. reflexivity.
Defined.

(** X9: after every sequence of events, a completed interview has a
    transcript that ends with a turn of the assistant.  The page then
    renders exactly when the final score it holds is a Number, and
    exactly then is that last turn drawn as the terminal one; with any
    other score the render throws and nothing is drawn.  While every
    response that said [completed] carried a Number, the last turn of a
    completed interview is drawn as the terminal one.  A turn is drawn
    as terminal only when the interview is completed, the page renders
    and the turn is the last one. *)
Theorem interview_terminal_turn_is_last
  (now : Z) (evs : list InterviewPage.Event) :
  let st := React.ui (InterviewPage.run now evs) in
  (InterviewPage.completed st = true ->
   (exists before d,
       InterviewPage.messages st =
       before ++ [InterviewPage.mkMessage (Js.lit "assistant")
                                          (InterviewPage.data_response d)]) /\
   InterviewPage.renders st = Js.isNumber (InterviewPage.finalScore st) /\
   InterviewPage.isTerminal st
     (List.length (InterviewPage.messages st) - 1) =
   Js.isNumber (InterviewPage.finalScore st)) /\
  (Forall InterviewPage.scoresCompletion evs ->
   InterviewPage.completed st = true ->
   InterviewPage.isTerminal st
     (List.length (InterviewPage.messages st) - 1) = true) /\
  (forall index,
      InterviewPage.isTerminal st index = true ->
      InterviewPage.completed st = true /\
      InterviewPage.renders st = true /\
      S index = List.length (InterviewPage.messages st)).
Proof.
  cbv zeta. destruct (interview_run_shape now evs) as [Inv Sh].
  assert (Hdone : InterviewPage.completed
                    (React.ui (InterviewPage.run now evs)) = true ->
          (exists before d,
              InterviewPage.messages (React.ui (InterviewPage.run now evs)) =
              before ++ [InterviewPage.assistantTurn d]) /\
          InterviewPage.renders (React.ui (InterviewPage.run now evs)) =
          Js.isNumber
            (InterviewPage.finalScore (React.ui (InterviewPage.run now evs)))
          /\
          InterviewPage.isTerminal (React.ui (InterviewPage.run now evs))
            (List.length
               (InterviewPage.messages (React.ui (InterviewPage.run now evs)))
             - 1) =
          Js.isNumber
            (InterviewPage.finalScore (React.ui (InterviewPage.run now evs)))).
  { intros Hc.
    destruct (InterviewPage.shape_closing Sh Hc) as (before & d & E).
    destruct (InterviewPage.inv_done Inv Hc) as [Hss _].
    pose proof (proj2 (InterviewPage.inv_eval Inv) Hc) as Hev.
    assert (Hr : InterviewPage.renders
                   (React.ui (InterviewPage.run now evs)) =
                 Js.isNumber
                   (InterviewPage.finalScore
                      (React.ui (InterviewPage.run now evs)))).
    { unfold InterviewPage.renders, InterviewPage.finalScore.
      rewrite Hss, Hc.
      destruct (InterviewPage.evaluation _); [reflexivity | now elim Hev]. }
    split; [now exists before, d|]. split; [exact Hr|].
    unfold InterviewPage.isTerminal. rewrite Hr, Hss, E, Hc, length_app.
    simpl.
    replace (List.length before + 1 - 1)%nat with (List.length before)
      by lia.
    rewrite nth_error_app2, Nat.sub_diag by auto. simpl.
    rewrite Nat.eqb_refl. apply andb_true_r. }
  split; [exact Hdone|]. split.
  - intros Hevs Hc. destruct (Hdone Hc) as (_ & _ & ->).
    now apply interview_run_scored.
  - intros index Ht. unfold InterviewPage.isTerminal in Ht.
    apply andb_prop in Ht as [Hsr Ht].
    apply andb_prop in Hsr as [_ Hr].
    destruct (nth_error _ index) as [msg|] eqn:Ei; [|discriminate].
    apply andb_prop in Ht as [Ht Hi]. apply andb_prop in Ht as [_ Hc].
    split; auto. split; auto.
    apply Nat.eqb_eq in Hi.
    assert (index < List.length
              (InterviewPage.messages (React.ui (InterviewPage.run now evs))))%nat
      by (apply nth_error_Some; congruence).
    lia.
Qed.

Lemma interview_terminal_turn_is_last_witness :
  InterviewPage.isTerminal
    (React.ui (InterviewPage.run 1700000000000
       (Samples.started ++ Samples.answering ++
        [InterviewPage.Settle 0 (React.Fulfilled Samples.closing)])))
    (List.length
       (InterviewPage.messages
          (React.ui (InterviewPage.run 1700000000000
             (Samples.started ++ Samples.answering ++
              [InterviewPage.Settle 0 (React.Fulfilled Samples.closing)]))))
     - 1) = true.
Proof.
  destruct (interview_terminal_turn_is_last 1700000000000
              (Samples.started ++ Samples.answering ++
               [InterviewPage.Settle 0 (React.Fulfilled Samples.closing)]))
    as (_ & Hscored & _).
  apply Hscored.
  - repeat constructor; simpl; auto.
  - vm_compute. reflexivity.
Defined.

(** X10: [startInterview] refuses a start whose candidate name or
    position is empty or holds only white space: it raises the error
    toast, sends no request and leaves the page state as it is. *)
Theorem interview_blank_start_refused (st : InterviewPage.State) :
  forallb Js.isWhiteSpace (InterviewPage.candidateName st) = true \/
  forallb Js.isWhiteSpace (InterviewPage.position st) = true ->
  InterviewPage.startInterview st =
  (tt, st, [React.Toast React.TError
              "Please enter candidate name and position"]).
Proof.
  intros Hb. apply InterviewFacts.interview_start_blank.
  unfold InterviewPage.namesGiven.
  destruct Hb as [Hb|Hb]; apply JsFacts.trim_nil_iff in Hb; rewrite Hb;
    simpl; auto using andb_false_r.
Qed.

Lemma interview_blank_start_refused_witness :
  React.requestsOf
    (React.effectsOf
       (InterviewPage.startInterview
          (InterviewPage.mkState false (Js.lit "Ada") (Js.lit "  ") [] []
             false false None (InterviewPage.sessionId_init 0)))) = [].
Proof.
  rewrite (interview_blank_start_refused
             (InterviewPage.mkState false (Js.lit "Ada") (Js.lit "  ") [] []
                false false None (InterviewPage.sessionId_init 0))).
  - reflexivity.
  - right. reflexivity.
Defined.

(** X11: an interview answer that succeeds sends one request carrying
    the session id, the candidate name, the position and the message,
    and appends exactly two turns, the user's answer and then the
    assistant's reply; it clears the answer field and lowers [loading].
    The interview is completed afterwards exactly when the response says
    so, and only then is the evaluation stored. *)
Theorem interview_exchange_appends_two_turns
  (st : InterviewPage.State) (d : InterviewPage.Data) :
  Js.truthyStr (Js.trim (InterviewPage.input st)) = true ->
  InterviewPage.loading st = false ->
  InterviewPage.completed st = false ->
  React.requestsOf (React.effectsOf (InterviewPage.handleSend st)) =
    [InterviewPage.PostInterview
       (InterviewPage.sessionId st) (InterviewPage.candidateName st)
       (InterviewPage.position st) (Some (InterviewPage.input st))] /\
  React.stateOf
    (InterviewPage.handleSend_resume (React.Fulfilled d)
       (React.stateOf (InterviewPage.handleSend st))) =
  InterviewPage.mkState
    (InterviewPage.sessionStarted st) (InterviewPage.candidateName st)
    (InterviewPage.position st)
    (InterviewPage.messages st
     ++ [InterviewPage.mkMessage (Js.lit "user")
                                 (Js.JStr (InterviewPage.input st));
         InterviewPage.mkMessage (Js.lit "assistant")
                                 (InterviewPage.data_response d)])
    [] false (Js.truthy (InterviewPage.data_completed d))
    (if Js.truthy (InterviewPage.data_completed d)
     then Some (InterviewPage.mkEvaluation (InterviewPage.data_score d)
                                           (InterviewPage.data_response d))
     else InterviewPage.evaluation st)
    (InterviewPage.sessionId st) /\
  React.requestsOf
    (React.effectsOf
       (InterviewPage.handleSend_resume (React.Fulfilled d)
          (React.stateOf (InterviewPage.handleSend st)))) = [].
Proof.
  intros Ht Hl Hc.
  rewrite InterviewFacts.interview_handleSend_accepted
    by now rewrite Ht, Hl, Hc.
  rewrite InterviewFacts.interview_answer_fulfilled.
  unfold React.stateOf, React.effectsOf.
  destruct (Js.truthy (InterviewPage.data_completed d)); simpl;
    rewrite <- app_assoc; simpl; rewrite ?Hc; auto.
Qed.

Lemma interview_exchange_appends_two_turns_witness :
  InterviewPage.completed
    (React.stateOf
       (InterviewPage.handleSend_resume (React.Fulfilled Samples.closing)
          (React.stateOf (InterviewPage.handleSend Samples.inProgress)))) =
  true.
Proof.
  rewrite (proj1 (proj2
    (interview_exchange_appends_two_turns Samples.inProgress Samples.closing
       eq_refl eq_refl eq_refl))).
  reflexivity.
Defined.

(* ================================================================== *)
(** * More about the resume page *)
(* ================================================================== *)

Lemma length_eqb_nil {A} (l : list A) :
  (List.length l =? 0)%nat = false <-> l <> [].
Proof. destruct l; simpl; split; congruence. Qed.

(** Every step of the resume page is one of its moves. *)
Lemma resume_step_move (w : ResumePage.W) (e : ResumePage.Event) :
  ResumePage.Move w (ResumePage.step w e).
Proof.
  destruct e as [files| |v| |i r]; simpl.
  - unfold ResumePage.handleFileChange.
    destruct (Upload.files0 files) as [f|].
    + destruct (Upload.accepted f) eqn:Ha; unfold React.commit; simpl;
        rewrite ?app_nil_r.
      * now apply ResumePage.FilePicked.
      * destruct w as [st infl nots]. simpl.
        now apply (@ResumePage.FileRefused (React.mkWorld st infl nots) f).
    + rewrite ReactFacts.commit_idle by reflexivity. apply ResumePage.Idle.
  - unfold ResumePage.uploadEnabled.
    destruct (ResumePage.uploading (React.ui w)) eqn:Hu; simpl;
      [apply ResumePage.Idle|].
    destruct (ResumePage.selectedFile (React.ui w)) as [f|] eqn:Hf; simpl;
      [|apply ResumePage.Idle].
    unfold React.commit, ResumePage.handleUpload, React.bind, React.read.
    rewrite Hf. simpl.
    now apply ResumePage.UploadIssued.
  - unfold React.commit. simpl. rewrite !app_nil_r.
    apply ResumePage.JobEdited.
  - unfold ResumePage.screenEnabled.
    destruct (ResumePage.screening (React.ui w)) eqn:Hs; simpl;
      [apply ResumePage.Idle|].
    destruct (Js.truthyStr (Js.trim (ResumePage.jobDescription (React.ui w))))
      eqn:Ht; simpl; [|apply ResumePage.Idle].
    destruct (List.length (ResumePage.resumes (React.ui w)) =? 0)%nat eqn:Hn;
      simpl; [apply ResumePage.Idle|].
    unfold React.commit, ResumePage.handleScreenResumes, React.bind,
      React.read.
    rewrite Ht, Hn. simpl.
    apply ResumePage.ScreenIssued; auto. now apply length_eqb_nil.
  - unfold React.settle.
    destruct (nth_error (React.inflight w) i) as [c|] eqn:Ei;
      [|apply ResumePage.Idle].
    destruct c as [|f|jd]; destruct r as [d|]; unfold React.commit; simpl;
      rewrite ?app_nil_r.
    + now apply ResumePage.CatalogLoaded.
    + destruct w as [st infl nots]. simpl in *.
      now apply (@ResumePage.CatalogFailed (React.mkWorld st infl nots)).
    + now apply ResumePage.UploadFulfilled with (f := f).
    + now apply ResumePage.UploadRejected with (f := f).
    + now apply ResumePage.ScreenFulfilled with (jd := jd).
    + now apply ResumePage.ScreenRejected with (jd := jd).
Qed.

Lemma resume_move_shape (w w' : ResumePage.W) :
  ResumePage.Move w w' ->
  ResumePage.resumeShape w ->
  ResumePage.resumeShape w'.
Proof.
  intros M [Hu Hs Hjd Hr].
  destruct M;
    try match goal with
        | Hi : nth_error _ _ = Some _ |- _ =>
            rewrite (ReactFacts.filter_removeNth ResumePage.isUpload _ _ Hi)
              in Hu;
            rewrite (ReactFacts.filter_removeNth ResumePage.isScreening _ _ Hi)
              in Hs
        end;
    constructor; simpl in *; auto;
    rewrite ?filter_app, ?length_app; simpl;
    try solve [intros; in_notices; eauto using truthyStr_true];
    try solve [rewrite Hr; simpl; lia];
    try solve [destruct (ResumePage.uploading (React.ui w));
               destruct (ResumePage.screening (React.ui w));
               simpl in *; congruence || lia].
Qed.

Lemma resume_run_shape (evs : list ResumePage.Event) :
  ResumePage.resumeShape (ResumePage.run evs).
Proof.
  unfold ResumePage.run.
  apply (@ReactFacts.fold_left_invariant _ _ ResumePage.resumeShape).
  - intros w e Sh. apply (resume_move_shape (resume_step_move w e) Sh).
  - constructor; simpl; auto. intros; in_notices.
Qed.

(** X12: after every sequence of events on the resume page, [uploading]
    is raised exactly while one upload is in flight and [screening]
    exactly while one screening run is in flight, so there is never more
    than one of either; while the flag is raised the corresponding
    button does nothing. *)
Theorem resume_busy_flags_track_requests (evs : list ResumePage.Event) :
  let w := ResumePage.run evs in
  List.length (filter ResumePage.isUpload (React.inflight w)) =
    (if ResumePage.uploading (React.ui w) then 1%nat else 0%nat) /\
  List.length (filter ResumePage.isScreening (React.inflight w)) =
    (if ResumePage.screening (React.ui w) then 1%nat else 0%nat) /\
  (ResumePage.uploading (React.ui w) = true ->
   ResumePage.step w ResumePage.ClickUpload = w) /\
  (ResumePage.screening (React.ui w) = true ->
   ResumePage.step w ResumePage.ClickScreen = w).
Proof.
  cbv zeta. destruct (resume_run_shape evs) as [Hu Hs _ _].
  repeat split; auto.
  - intros Hb. simpl. unfold ResumePage.uploadEnabled. now rewrite Hb.
  - intros Hb. simpl. unfold ResumePage.screenEnabled. now rewrite Hb.
Qed.

Lemma resume_busy_flags_track_requests_witness :
  ResumePage.step
    (ResumePage.run [ResumePage.FileChange [Samples.cvPdf];
                     ResumePage.ClickUpload])
    ResumePage.ClickUpload =
  ResumePage.run [ResumePage.FileChange [Samples.cvPdf];
                  ResumePage.ClickUpload].
Proof.
  destruct (resume_busy_flags_track_requests
              [ResumePage.FileChange [Samples.cvPdf]; ResumePage.ClickUpload])
    as (_ & _ & Hup & _).
  apply Hup. reflexivity.
Defined.



(** X14: [handleScreenResumes] refuses a run whose job description is
    empty or holds only white space, and otherwise a run on an empty
    catalog: it raises the matching error toast, sends nothing and
    leaves the page state as it is, the job description being checked
    first.  After every sequence of events, every screening request the
    page has sent carried a job description that is not blank. *)
Theorem resume_screening_guard :
  (forall st,
      forallb Js.isWhiteSpace (ResumePage.jobDescription st) = true ->
      ResumePage.handleScreenResumes st =
      (tt, st, [React.Toast React.TError "Please enter a job description"]))
  /\
  (forall st,
      forallb Js.isWhiteSpace (ResumePage.jobDescription st) = false ->
      ResumePage.resumes st = [] ->
      ResumePage.handleScreenResumes st =
      (tt, st, [React.Toast React.TError "Please upload resumes first"])) /\
  (forall st,
      forallb Js.isWhiteSpace (ResumePage.jobDescription st) = false ->
      ResumePage.resumes st <> [] ->
      React.requestsOf (React.effectsOf (ResumePage.handleScreenResumes st)) =
      [ResumePage.PostScreenResumes (ResumePage.jobDescription st)]) /\
  (forall evs jd,
      In (React.Request (ResumePage.PostScreenResumes jd))
         (React.notices (ResumePage.run evs)) ->
      Js.trim jd <> []).
Proof.
  assert (Hblank : forall s, forallb Js.isWhiteSpace s = false ->
                             Js.truthyStr (Js.trim s) = true).
  { intros s Hs. destruct (Js.trim s) eqn:E; auto.
    apply JsFacts.trim_nil_iff in E. congruence. }
  split; [|split; [|split]].
  - intros st Hb. apply JsFacts.trim_nil_iff in Hb.
    unfold ResumePage.handleScreenResumes, React.bind, React.read.
    now rewrite Hb.
  - intros st Hb He.
    unfold ResumePage.handleScreenResumes, React.bind, React.read.
    now rewrite (Hblank _ Hb), He.
  - intros st Hb He. apply length_eqb_nil in He.
    unfold ResumePage.handleScreenResumes, React.bind, React.read.
    now rewrite (Hblank _ Hb), He.
  - intros evs. apply (ResumePage.screened_with_text (resume_run_shape evs)).
Qed.

Lemma resume_screening_guard_witness :
  React.requestsOf
    (React.effectsOf
       (ResumePage.handleScreenResumes
          (ResumePage.mkState Samples.catalog false false None (Js.lit " ")
                              []))) = [].
Proof.
  rewrite (proj1 resume_screening_guard
             (ResumePage.mkState Samples.catalog false false None
                                 (Js.lit " ") []) eq_refl).
  reflexivity.
Defined.

(** X15: after every sequence of events the resume page has requested
    the catalog once more often than it has reported a success: once at
    mount and once after every upload and every screening run that went
    through. *)
Theorem resume_refresh_follows_success (evs : list ResumePage.Event) :
  List.length (filter ResumePage.isRefresh
                      (React.notices (ResumePage.run evs))) =
  S (List.length (filter ResumePage.isSuccess
                         (React.notices (ResumePage.run evs)))).
Proof. apply (ResumePage.refreshed_after_success (resume_run_shape evs)). Qed.

(** A non-empty last run is what the page displays. *)
Lemma displayResults_run (run catalog : list ResumePage.Item) :
  run <> [] -> ResumePage.displayResults run catalog = run.
Proof.
  intros Hne. unfold ResumePage.displayResults.
  destruct run; [now elim Hne | reflexivity].
Qed.

(** A move changes the last run only by settling a screening request. *)
Lemma resume_move_results (w w' : ResumePage.W) :
  ResumePage.Move w w' ->
  ResumePage.resumeShape w ->
  ResumePage.screenResults (React.ui w') = ResumePage.screenResults (React.ui w)
  \/ (ResumePage.screening (React.ui w) = true /\
      ResumePage.screening (React.ui w') = false).
Proof.
  intros M [_ Hs _ _]. destruct M; simpl; auto.
  right. split; auto.
  rewrite (ReactFacts.filter_removeNth ResumePage.isScreening _ _ H) in Hs.
  simpl in Hs. destruct (ResumePage.screening (React.ui w)); auto. lia.
Qed.

(** X16: after every sequence of events, an event changes the last
    screening run the page holds only by settling the screening request
    in flight.  So while no run is pending, a non-empty run stays on
    display as it is through file picks, uploads and refreshes of the
    catalog. *)
Theorem resume_last_run_stable
  (evs : list ResumePage.Event) (e : ResumePage.Event) :
  let w := ResumePage.run evs in
  (ResumePage.screenResults (React.ui (ResumePage.step w e)) <>
   ResumePage.screenResults (React.ui w) ->
   ResumePage.screening (React.ui w) = true /\
   ResumePage.screening (React.ui (ResumePage.step w e)) = false) /\
  (ResumePage.screening (React.ui w) = false ->
   ResumePage.screenResults (React.ui w) <> [] ->
   ResumePage.displayResults
     (ResumePage.screenResults (React.ui (ResumePage.step w e)))
     (ResumePage.resumes (React.ui (ResumePage.step w e))) =
   ResumePage.displayResults
     (ResumePage.screenResults (React.ui w))
     (ResumePage.resumes (React.ui w))).
Proof.
  cbv zeta.
  destruct (resume_move_results
              (resume_step_move (ResumePage.run evs) e)
              (resume_run_shape evs)) as [E|[H1 H2]].
  - split; [congruence|]. intros _ Hne. rewrite E.
    rewrite !displayResults_run by exact Hne. reflexivity.
  - split; auto. congruence.
Qed.

Lemma resume_last_run_stable_witness :
  ResumePage.displayResults
    (ResumePage.screenResults
       (React.ui
          (ResumePage.step
             (ResumePage.run
                [ResumePage.Settle 0
                   (React.Fulfilled
                      (ResumePage.mkData (Some Samples.catalog) None));
                 ResumePage.ChangeJobDescription (Js.lit "Engineer");
                 ResumePage.ClickScreen;
                 ResumePage.Settle 0
                   (React.Fulfilled
                      (ResumePage.mkData None (Some Samples.lastRun)))])
             (ResumePage.Settle 0
                (React.Fulfilled (ResumePage.mkData (Some []) None))))))
    (ResumePage.resumes
       (React.ui
          (ResumePage.step
             (ResumePage.run
                [ResumePage.Settle 0
                   (React.Fulfilled
                      (ResumePage.mkData (Some Samples.catalog) None));
                 ResumePage.ChangeJobDescription (Js.lit "Engineer");
                 ResumePage.ClickScreen;
                 ResumePage.Settle 0
                   (React.Fulfilled
                      (ResumePage.mkData None (Some Samples.lastRun)))])
             (ResumePage.Settle 0
                (React.Fulfilled (ResumePage.mkData (Some []) None)))))) =
  Samples.lastRun.
Proof.
  rewrite (proj2 (resume_last_run_stable
             [ResumePage.Settle 0
                (React.Fulfilled
                   (ResumePage.mkData (Some Samples.catalog) None));
              ResumePage.ChangeJobDescription (Js.lit "Engineer");
              ResumePage.ClickScreen;
              ResumePage.Settle 0
                (React.Fulfilled
                   (ResumePage.mkData None (Some Samples.lastRun)))]
             (ResumePage.Settle 0
                (React.Fulfilled (ResumePage.mkData (Some []) None))))).
  - vm_compute. reflexivity.
  - vm_compute. reflexivity.
  - vm_compute. discriminate.
Defined.

(** X17: the displayed list never mixes the two sources: every entry
    comes from the last run when that run is not empty, and otherwise
    from the catalog with a truthy score.  The list is empty, and the
    page shows its placeholder, exactly when the last run is empty and
    no catalog item has a truthy score.  The ranks printed on the cards
    are 1, 2, ... in display order. *)
Theorem displayResults_single_source
  (screenResults resumes : list ResumePage.Item) :
  (forall x, In x (ResumePage.displayResults screenResults resumes) ->
             (screenResults <> [] /\ In x screenResults) \/
             (screenResults = [] /\ In x resumes /\
              Js.truthy (ResumePage.score x) = true)) /\
  (ResumePage.displayResults screenResults resumes = [] <->
   screenResults = [] /\
   forall x, In x resumes -> Js.truthy (ResumePage.score x) = false) /\
  map ResumePage.rank
      (seq 0 (List.length (ResumePage.displayResults screenResults resumes)))
  = seq 1 (List.length (ResumePage.displayResults screenResults resumes)).
Proof.
  split; [|split].
  - intros x Hin. destruct screenResults as [|r rs].
    + right. apply filter_In in Hin. tauto.
    + left. split; [discriminate | exact Hin].
  - destruct screenResults as [|r rs]; simpl.
    + unfold ResumePage.displayResults. simpl. split.
      * intros E. split; auto. intros x Hin.
        destruct (Js.truthy (ResumePage.score x)) eqn:Ht; auto.
        assert (Hx : In x (filter (fun r => Js.truthy (ResumePage.score r))
                                  resumes))
          by (apply filter_In; auto).
        rewrite E in Hx. destruct Hx.
      * intros [_ Hall]. induction resumes as [|y l IH]; simpl; auto.
        rewrite (Hall y) by now left.
        apply IH. intros x Hin. apply Hall. now right.
    + split; [discriminate | intros [E _]; discriminate].
  - generalize (List.length
                  (ResumePage.displayResults screenResults resumes)).
    intros n. rewrite <- seq_shift. apply map_ext. intros i.
    unfold ResumePage.rank. lia.
Qed.

(* ================================================================== *)
(** * More about the document page *)
(* ================================================================== *)

(** Every step of the document page is one of its moves. *)
Lemma documents_step_move (w : DocumentsPage.W) (e : DocumentsPage.Event) :
  DocumentsPage.Move w (DocumentsPage.step w e).
Proof.
  destruct e as [files| |c|i r]; simpl.
  - unfold DocumentsPage.handleFileChange.
    destruct (Upload.files0 files) as [f|].
    + destruct (Upload.accepted f) eqn:Ha; unfold React.commit; simpl;
        rewrite ?app_nil_r.
      * now apply DocumentsPage.FilePicked.
      * destruct w as [st infl nots]. simpl.
        now apply (@DocumentsPage.FileRefused (React.mkWorld st infl nots) f).
    + rewrite ReactFacts.commit_idle by reflexivity. apply DocumentsPage.Idle.
  - unfold DocumentsPage.uploadEnabled.
    destruct (DocumentsPage.uploading (React.ui w)) eqn:Hu; simpl;
      [apply DocumentsPage.Idle|].
    destruct (DocumentsPage.selectedFile (React.ui w)) as [f|] eqn:Hf; simpl;
      [|apply DocumentsPage.Idle].
    unfold React.commit, DocumentsPage.handleUpload, React.bind, React.read.
    rewrite Hf. simpl.
    now apply DocumentsPage.UploadIssued.
  - unfold React.commit. simpl. rewrite !app_nil_r.
    apply DocumentsPage.TypeSelected.
  - unfold React.settle.
    destruct (nth_error (React.inflight w) i) as [c|] eqn:Ei;
      [|apply DocumentsPage.Idle].
    destruct c as [|f t]; destruct r as [d|]; unfold React.commit; simpl;
      rewrite ?app_nil_r.
    + now apply DocumentsPage.ListLoaded.
    + destruct w as [st infl nots]. simpl in *.
      now apply (@DocumentsPage.ListFailed (React.mkWorld st infl nots)).
    + now apply DocumentsPage.UploadFulfilled with (f := f) (t := t).
    + now apply DocumentsPage.UploadRejected with (f := f) (t := t).
Qed.

Lemma docTypeValue_offered (c : DocumentsPage.DocTypeChoice) :
  DocumentsPage.offeredType (DocumentsPage.docTypeValue c).
Proof. destruct c; unfold DocumentsPage.offeredType; simpl; auto. Qed.

Lemma documents_move_shape (w w' : DocumentsPage.W) :
  DocumentsPage.Move w w' ->
  DocumentsPage.documentShape w ->
  DocumentsPage.documentShape w'.
Proof.
  intros M [Ht Hsent Hu Hr].
  destruct M;
    try match goal with
        | Hi : nth_error _ _ = Some _ |- _ =>
            rewrite (ReactFacts.filter_removeNth DocumentsPage.isUpload _ _ Hi)
              in Hu
        end;
    constructor; simpl in *; auto using docTypeValue_offered;
    rewrite ?filter_app, ?length_app; simpl;
    try solve [intros; in_notices; eauto];
    try solve [rewrite Hr; simpl; lia];
    try solve [destruct (DocumentsPage.uploading (React.ui w));
               simpl in *; congruence || lia].
Qed.

Lemma documents_run_shape (evs : list DocumentsPage.Event) :
  DocumentsPage.documentShape (DocumentsPage.run evs).
Proof.
  unfold DocumentsPage.run.
  apply (@ReactFacts.fold_left_invariant _ _ DocumentsPage.documentShape).
  - intros w e Sh. apply (documents_move_shape (documents_step_move w e) Sh).
  - constructor; simpl; auto.
    + left. reflexivity.
    + intros; in_notices.
Qed.

(** X18: after every sequence of events the document type the page
    holds is one of hr, policy and general, and so is the type carried
    by every upload request the page has sent. *)
Theorem documents_upload_type_offered (evs : list DocumentsPage.Event) :
  DocumentsPage.offeredType
    (DocumentsPage.docType (React.ui (DocumentsPage.run evs))) /\
  (forall f t,
      In (React.Request (DocumentsPage.PostUploadDocument f t))
         (React.notices (DocumentsPage.run evs)) ->
      t = Js.lit "hr" \/ t = Js.lit "policy" \/ t = Js.lit "general").
Proof.
  destruct (documents_run_shape evs) as [Ht Hsent _ _]. split; auto.
Qed.

(** X19: after every sequence of events on the document page,
    [uploading] is raised exactly while one upload is in flight, so
    there is never more than one; while it is raised the upload button
    does nothing. *)
Theorem documents_busy_flag_tracks_upload (evs : list DocumentsPage.Event) :
  let w := DocumentsPage.run evs in
  List.length (filter DocumentsPage.isUpload (React.inflight w)) =
    (if DocumentsPage.uploading (React.ui w) then 1%nat else 0%nat) /\
  (DocumentsPage.uploading (React.ui w) = true ->
   DocumentsPage.step w DocumentsPage.ClickUpload = w).
Proof.
  cbv zeta. destruct (documents_run_shape evs) as [_ _ Hu _].
  split; auto.
  intros Hb. simpl. unfold DocumentsPage.uploadEnabled. now rewrite Hb.
Qed.

Lemma documents_busy_flag_tracks_upload_witness :
  DocumentsPage.step
    (DocumentsPage.run [DocumentsPage.FileChange [Samples.cvPdf];
                        DocumentsPage.ClickUpload])
    DocumentsPage.ClickUpload =
  DocumentsPage.run [DocumentsPage.FileChange [Samples.cvPdf];
                     DocumentsPage.ClickUpload].
Proof.
  apply (proj2 (documents_busy_flag_tracks_upload
                  [DocumentsPage.FileChange [Samples.cvPdf];
                   DocumentsPage.ClickUpload])).
  reflexivity.
Defined.



(** X21: after every sequence of events the document page has requested
    the list of documents once more often than it has reported a
    success: once at mount and once after every upload that went
    through. *)
Theorem documents_refresh_follows_success (evs : list DocumentsPage.Event) :
  List.length (filter DocumentsPage.isRefresh
                      (React.notices (DocumentsPage.run evs))) =
  S (List.length (filter DocumentsPage.isSuccess
                         (React.notices (DocumentsPage.run evs)))).
Proof.
  apply (DocumentsPage.refreshed_after_success (documents_run_shape evs)).
Qed.

(* ================================================================== *)
(** * History hydration and accepted file names *)
(* ================================================================== *)

Lemma filter_removeNth_other {A} (p : A -> bool) (l : list A) (i : nat)
  (c : A) :
  nth_error l i = Some c -> p c = false ->
  filter p (React.removeNth i l) = filter p l.
Proof.
  revert i. induction l as [|x l IH]; intros [|i]; simpl; try discriminate.
  - intros E Hp. injection E as ->. now rewrite Hp.
  - intros E Hp. rewrite (IH _ E Hp). reflexivity.
Qed.

Lemma existsb_filter_nil {A} (p : A -> bool) (l : list A) :
  filter p l = [] -> existsb p l = false.
Proof.
  induction l as [|x l IH]; simpl; auto.
  destruct (p x); simpl; [discriminate | auto].
Qed.

(** At most one history request is ever in flight. *)
Lemma chat_move_one_history (w w' : ChatPage.W) :
  ChatPage.Move w w' ->
  (List.length (filter ChatPage.isHistory (React.inflight w)) <= 1)%nat ->
  (List.length (filter ChatPage.isHistory (React.inflight w')) <= 1)%nat.
Proof.
  intros M Hle.
  destruct M; simpl; auto;
    try (rewrite (ReactFacts.filter_removeNth ChatPage.isHistory _ _ H) in Hle;
         lia).
  rewrite filter_app, length_app. simpl. lia.
Qed.

Lemma chat_run_one_history (now : Z) (evs : list ChatPage.Event) :
  (List.length
     (filter ChatPage.isHistory (React.inflight (ChatPage.run now evs)))
   <= 1)%nat.
Proof.
  unfold ChatPage.run.
  apply (@ReactFacts.fold_left_invariant _ _
           (fun w => (List.length
                        (filter ChatPage.isHistory (React.inflight w))
                      <= 1)%nat)).
  - intros w e. apply (chat_move_one_history (chat_step_move w e)).
  - simpl. lia.
Qed.

(** X22: when the history request settles, hydration is over for good:
    no history request is pending afterwards.  A response that carries
    messages replaces the transcript by exactly those messages, whatever
    turns the page had appended meanwhile; a response without messages,
    or a failure, leaves the transcript as it is.  Either way the input
    field, [loading] and the exchange in flight, if any, are
    untouched. *)
Theorem chat_hydration_replaces_transcript
  (now : Z) (evs : list ChatPage.Event) (i : nat) (sid : Js.jsstring)
  (r : React.Outcome ChatPage.Data) :
  nth_error (React.inflight (ChatPage.run now evs)) i =
    Some (ChatPage.GetChatHistory sid) ->
  let w := ChatPage.run now evs in
  let w' := ChatPage.step w (ChatPage.Settle i r) in
  ChatPage.historyPending w' = false /\
  ChatPage.messages (React.ui w') =
    match r with
    | React.Fulfilled d =>
        match ChatPage.data_messages d with
        | Some ms => ms
        | None => ChatPage.messages (React.ui w)
        end
    | React.Rejected => ChatPage.messages (React.ui w)
    end /\
  ChatPage.input (React.ui w') = ChatPage.input (React.ui w) /\
  ChatPage.loading (React.ui w') = ChatPage.loading (React.ui w) /\
  ChatPage.exchangesInFlight w' = ChatPage.exchangesInFlight w.
Proof.
  intros Hi. cbv zeta.
  pose proof (chat_run_one_history now evs) as Hle.
  rewrite (ReactFacts.filter_removeNth ChatPage.isHistory _ _ Hi) in Hle.
  simpl in Hle.
  assert (Hnil : filter ChatPage.isHistory
                   (React.removeNth i
                      (React.inflight (ChatPage.run now evs))) = []).
  { apply length_zero_iff_nil. lia. }
  unfold ChatPage.step, React.settle. rewrite Hi.
  unfold ChatPage.historyPending, ChatPage.exchangesInFlight.
  rewrite ReactFacts.ui_commit, ReactFacts.inflight_commit.
  destruct r as [d|]; simpl; [destruct (ChatPage.data_messages d)|];
    simpl; rewrite app_nil_r;
    rewrite (@filter_removeNth_other _ ChatPage.isExchange _ _ _ Hi eq_refl);
    repeat split; now apply existsb_filter_nil.
Qed.

Lemma chat_hydration_replaces_transcript_witness :
  ChatPage.messages
    (React.ui
       (ChatPage.step
          (ChatPage.run 1700000000000
             [ChatPage.ChangeInput (Js.lit "hello"); ChatPage.PressEnter])
          (ChatPage.Settle 0
             (React.Fulfilled
                (ChatPage.mkData Js.JUndefined Js.JUndefined Js.JUndefined
                                 (Some [])))))) = [].
Proof.
  refine (proj1 (proj2
    (chat_hydration_replaces_transcript 1700000000000
       [ChatPage.ChangeInput (Js.lit "hello"); ChatPage.PressEnter] 0
       (React.Fulfilled
          (ChatPage.mkData Js.JUndefined Js.JUndefined Js.JUndefined
                           (Some [])))
       _))).
  vm_compute. reflexivity.
Defined.

Lemma jsstring_eqb_eq (a b : Js.jsstring) :
  Js.jsstring_eqb a b = true <-> a = b.
Proof.
  revert b. induction a as [|x a IH]; intros [|y b]; simpl;
    try (split; congruence).
  rewrite andb_true_iff, N.eqb_eq, IH. split.
  - intros [-> ->]. reflexivity.
  - intros E. injection E as -> ->. auto.
Qed.

(** [s.endsWith(suffix)] holds exactly when [s] is something followed
    by [suffix]. *)
Lemma endsWith_iff (s suffix : Js.jsstring) :
  Js.endsWith s suffix = true <-> exists stem, s = stem ++ suffix.
Proof.
  unfold Js.endsWith. rewrite andb_true_iff, jsstring_eqb_eq, Nat.leb_le.
  split.
  - intros [E _].
    exists (firstn (List.length s - List.length suffix) s).
    pose proof (firstn_skipn (List.length s - List.length suffix) s) as F.
    rewrite E in F. now symmetry.
  - intros [stem ->]. rewrite length_app. split; [|lia].
    replace (List.length stem + List.length suffix - List.length suffix)%nat
      with (List.length stem) by lia.
    rewrite skipn_app, skipn_all, Nat.sub_diag. reflexivity.
Qed.

(** X23: a file is accepted for upload exactly when its name is some
    stem, possibly empty, followed by .pdf or by .docx.  The test is
    case-sensitive: a name ending in .PDF or .DOCX is refused. *)
Theorem accepted_iff_extension (file : Upload.File) :
  (Upload.accepted file = true <->
   exists stem, Upload.name file = stem ++ Js.lit ".pdf" \/
                Upload.name file = stem ++ Js.lit ".docx") /\
  ((exists stem, Upload.name file = stem ++ Js.lit ".PDF" \/
                 Upload.name file = stem ++ Js.lit ".DOCX") ->
   Upload.accepted file = false).
Proof.
  assert (Hiff : Upload.accepted file = true <->
                 exists stem, Upload.name file = stem ++ Js.lit ".pdf" \/
                              Upload.name file = stem ++ Js.lit ".docx").
  { unfold Upload.accepted. rewrite orb_true_iff, !endsWith_iff.
    split.
    - intros [[stem E]|[stem E]]; exists stem; auto.
    - intros [stem [E|E]]; [left|right]; now exists stem. }
  split; auto.
  intros [stem Hup].
  destruct (Upload.accepted file) eqn:Ha; auto.
  destruct (proj1 Hiff eq_refl) as [stem' Hlow]. exfalso.
  assert (Hlast : forall (a b : Js.jsstring) (x y : N),
             a ++ [x] = b ++ [y] -> x = y).
  { intros a b x y E. now apply app_inj_tail in E. }
  destruct Hup as [Hup|Hup], Hlow as [Hlow|Hlow]; rewrite Hup in Hlow;
    cbn in Hlow;
    match type of Hlow with
    | ?a ++ [?c1; ?c2; ?c3; ?x] = ?b ++ [?d1; ?d2; ?d3; ?y] =>
        change (a ++ [c1; c2; c3; x]) with (a ++ [c1; c2; c3] ++ [x]) in Hlow;
        change (b ++ [d1; d2; d3; y]) with (b ++ [d1; d2; d3] ++ [y]) in Hlow
    | ?a ++ [?c1; ?c2; ?c3; ?x] = ?b ++ [?d1; ?d2; ?d3; ?d4; ?y] =>
        change (a ++ [c1; c2; c3; x]) with (a ++ [c1; c2; c3] ++ [x]) in Hlow;
        change (b ++ [d1; d2; d3; d4; y])
          with (b ++ [d1; d2; d3; d4] ++ [y]) in Hlow
    | ?a ++ [?c1; ?c2; ?c3; ?c4; ?x] = ?b ++ [?d1; ?d2; ?d3; ?y] =>
        change (a ++ [c1; c2; c3; c4; x])
          with (a ++ [c1; c2; c3; c4] ++ [x]) in Hlow;
        change (b ++ [d1; d2; d3; y]) with (b ++ [d1; d2; d3] ++ [y]) in Hlow
    | ?a ++ [?c1; ?c2; ?c3; ?c4; ?x] = ?b ++ [?d1; ?d2; ?d3; ?d4; ?y] =>
        change (a ++ [c1; c2; c3; c4; x])
          with (a ++ [c1; c2; c3; c4] ++ [x]) in Hlow;
        change (b ++ [d1; d2; d3; d4; y])
          with (b ++ [d1; d2; d3; d4] ++ [y]) in Hlow
    end;
    rewrite !app_assoc in Hlow; apply Hlast in Hlow; discriminate.
Qed.

Lemma accepted_iff_extension_witness :
  Upload.accepted (Upload.mkFile (Js.lit "CV.PDF") []) = false.
Proof.
  apply (proj2 (accepted_iff_extension (Upload.mkFile (Js.lit "CV.PDF") []))).
  exists (Js.lit "CV"). left. reflexivity.
Defined.

(* ================================================================== *)
(** * The trace properties at sample traces *)
(* ================================================================== *)

Lemma chat_requests_well_formed_witness :
  Js.trim (Js.lit "hello") <> [].
Proof.
  apply (proj1 (proj2 (chat_requests_well_formed 1700000000000
                         [ChatPage.ChangeInput (Js.lit "hello");
                          ChatPage.PressEnter]))
               (ChatPage.sessionId_init 1700000000000) (Js.lit "hello")).
  vm_compute. right. left. reflexivity.
Defined.

Lemma interview_requests_well_formed_witness :
  Js.lit "Ada" =
  InterviewPage.candidateName
    (React.ui (InterviewPage.run 1700000000000
                 (Samples.started ++ Samples.answering))).
Proof.
  apply (proj2 (interview_requests_well_formed 1700000000000
                  (Samples.started ++ Samples.answering))
               (InterviewPage.sessionId_init 1700000000000) (Js.lit "Ada")
               (Js.lit "Backend Engineer")
               (Js.lit "I have 5 years of experience")).
  vm_compute. right. left. reflexivity.
Defined.

Lemma displayResults_single_source_witness :
  ResumePage.displayResults [] Samples.zeroScored = [].
Proof.
  apply (proj1 (proj2 (displayResults_single_source [] Samples.zeroScored))).
  split; auto. intros x [<-|[]]. reflexivity.
Defined.

Lemma documents_upload_type_offered_witness :
  Js.lit "policy" = Js.lit "hr" \/ Js.lit "policy" = Js.lit "policy" \/
  Js.lit "policy" = Js.lit "general".
Proof.
  apply (proj2 (documents_upload_type_offered
                  [DocumentsPage.FileChange [Samples.cvPdf];
                   DocumentsPage.SelectDocType DocumentsPage.ChoosePolicy;
                   DocumentsPage.ClickUpload])
               Samples.cvPdf (Js.lit "policy")).
  vm_compute. right. left. reflexivity.
Defined.

(* ================================================================== *)
(** * Failed engine calls on the page *)
(* ================================================================== *)








